(** * Journal_Lookup_Tool: a shallow embedding and its properties

    The development follows [Journal_Lookup_Tool.py]: the getters
    ([remove_duplicates], [get_paper], [get_paper_info]), the report
    writer ([get_pptx]), the reader ([read_config_file]), the searcher
    ([lookup_pubmed]) and [main].

    Conventions.
    - A Python [str] is a [string]; every [ascii] stands for one code
      point below 256.
    - A Python [dict] with a fixed set of possible keys is a record whose
      optional keys are [option] fields; a [dict] whose iteration order
      matters is an association list in insertion order; a [set] is a
      [gset].
    - The remote service, the clock and the file system are explicit:
      a call to the service is answered by an oracle indexed by the number
      of calls made so far, and every [time.sleep], network call, console
      message and file write is logged in a trace. *)

From Stdlib Require Import ZArith Ascii String List Lia Bool.
From stdpp Require Import base decidable option list gmap strings pretty sorting.

Local Open Scope string_scope.
Local Open Scope list_scope.
Local Open Scope nat_scope.

#[local] Arguments String.append !_ _ / : simpl nomatch.
#[local] Set Warnings "-clear-no-such-hyp".

(** ** Exceptions and results *)

(** The object bound by [except HTTPError as e].  [code] is the HTTP
    status; [response_status_code] is the value of
    [e.response.status_code] when the exception object has a [response]
    attribute, and [None] when it has none (reading it then raises
    [AttributeError]). *)
Record HTTPError := mkHTTPError {
  code : Z;
  response_status_code : option Z
}.

Inductive exn :=
| HTTPErrorExn (e : HTTPError)
| AttributeError
| UnboundLocalError
| KeyError
| IndexError
| TypeError
| ValueError (msg : string)
| OtherError (msg : string)
(** not a Python exception: a loop of the model ran out of fuel, the
    source loop does not end *)
| Diverges.

Inductive result (A : Type) :=
| Ret (a : A)
| Raise (e : exn).
Arguments Ret {A} a.
Arguments Raise {A} e.

Definition bind {A B} (r : result A) (k : A -> result B) : result B :=
  match r with
  | Ret a => k a
  | Raise e => Raise e
  end.

Notation "'let!' x ':=' r 'in' k" := (bind r (fun x => k))
  (at level 10, x name, r at level 100, k at level 200).

(** ** The normalised record built by [get_paper_info] *)

(** One entry of [ArticleDate]. *)
Record DateEntry := mkDate {
  Year : option string;
  Month : option string;
  Day : option string
}.

(** A key whose value is either the copied datum or a placeholder
    string such as ["No date available"]. *)
Inductive field (A : Type) :=
| Val (a : A)
| Str (s : string).
Arguments Val {A} a.
Arguments Str {A} s.

(** The [component] dict.  ["Title"] is read unconditionally by
    [remove_duplicates] and [get_pptx]; the other keys are tested with
    [in] or read with a fallback. *)
Record Component := mkComponent {
  Title : string;
  Abstract : option string;
  Journal : option string;
  Date : option (field (list DateEntry));
  Link : option (field (list string));
  Authors : option (field (list string));
  Institution : option (list string)
}.

(** ** A. Error handler, getters *)

(** [remove_duplicates]: the comprehension
    [[x for x in components if not (x["Title"] in seen or seen.add(x["Title"]))]]
    run as a loop that threads the set [seen]. *)
Fixpoint remove_duplicates_from (seen : gset string) (components : list Component)
  : list Component :=
  match components with
  | [] => []
  | x :: rest =>
      if decide (Title x ∈ seen)
      then remove_duplicates_from seen rest
      else x :: remove_duplicates_from ({[Title x]} ∪ seen) rest
  end.

Definition remove_duplicates (components : list Component) : list Component :=
  remove_duplicates_from ∅ components.

(** ** Python string primitives used by the report writer *)

Definition nl : string := String (ascii_of_nat 10) "".
Definition dquote : string := String (ascii_of_nat 34) "".
Definition space : ascii := " "%char.

(** [s[:n]] and [s[n:]] for [0 <= n]. *)
Fixpoint take_str (n : nat) (s : string) : string :=
  match n, s with
  | S n', String c r => String c (take_str n' r)
  | _, _ => ""
  end.

Fixpoint drop_str (n : nat) (s : string) : string :=
  match n, s with
  | S n', String _ r => drop_str n' r
  | _, _ => s
  end.

(** [str.isspace] on one character, for code points below 256:
    U+0009..U+000D, U+001C..U+0020, U+0085 and U+00A0. *)
Definition py_isspace (c : ascii) : bool :=
  let n := nat_of_ascii c in
  ((9 <=? n)%nat && (n <=? 13)%nat) || ((28 <=? n)%nat && (n <=? 32)%nat)
  || (n =? 133)%nat || (n =? 160)%nat.

(** [s.lstrip()]: drop the leading whitespace. *)
Fixpoint lstrip (s : string) : string :=
  match s with
  | String c r => if py_isspace c then lstrip r else s
  | "" => ""
  end.

(** [s.rfind(" ", 0, n)]: the highest index below [n] that holds a
    space; [None] stands for Python's [-1]. *)
Fixpoint rfind_space (s : string) (n : nat) : option nat :=
  match n, s with
  | S n', String c r =>
      match rfind_space r n' with
      | Some i => Some (S i)
      | None => if Ascii.eqb c space then Some O else None
      end
  | _, _ => None
  end.

(** [s.replace(old, "")] for a non-empty [old]: occurrences are removed
    left to right without overlap.  [skip] counts the characters of the
    occurrence being removed that are still to be passed over. *)
Fixpoint remove_occurrences (old : string) (skip : nat) (s : string) : string :=
  match s with
  | "" => ""
  | String c r =>
      match skip with
      | S k => remove_occurrences old k r
      | O => if String.prefix old s
             then remove_occurrences old (String.length old - 1) r
             else String c (remove_occurrences old 0 r)
      end
  end.

Definition replace_with_empty (old s : string) : string :=
  match old with
  | "" => s
  | _ => remove_occurrences old 0 s
  end.

(** The replace chain of [get_pptx] (title and abstract). *)
Definition strip_tags (text : string) : string :=
  replace_with_empty "</sup>"
    (replace_with_empty "<sup>"
      (replace_with_empty "</i>"
        (replace_with_empty "<i>"
          (replace_with_empty "</sub>"
            (replace_with_empty "<sub>" text))))).

(** ** The wrapping loop of [get_pptx]

    The same loop is written out five times in the source (keywords,
    title, abstract, authors, institutions), each with its own
    [max_characters_per_line]. *)

(** Whether [rfind] found a space ([Soft]) or the split fell back to
    [max_characters_per_line] ([Hard]). *)
Inductive break_kind := Soft | Hard.

(** One iteration of the [while] body: the chunk, how it was split, and
    the remaining text. *)
Definition wrap_step (text : string) (max_characters_per_line : nat)
  : string * break_kind * string :=
  let '(split_index, k) :=
    match rfind_space text max_characters_per_line with
    | Some i => (i, Soft)
    | None => (max_characters_per_line, Hard)
    end in
  (take_str split_index text, k, lstrip (drop_str split_index text)).

(** [while len(text) > max_characters_per_line: ...], followed by the
    remaining text.  The loop is run with fuel; [None] means the fuel ran
    out. *)
Fixpoint wrap_loop (fuel : nat) (text : string) (max_characters_per_line : nat)
  : option (list (string * break_kind) * string) :=
  if (String.length text <=? max_characters_per_line)%nat
  then Some ([], text)
  else
    match fuel with
    | O => None
    | S fuel' =>
        let '(chunk, k, rest) := wrap_step text max_characters_per_line in
        match wrap_loop fuel' rest max_characters_per_line with
        | Some (chunks, last) => Some ((chunk, k) :: chunks, last)
        | None => None
        end
    end.

Definition wrap (text : string) (max_characters_per_line : nat)
  : option (list (string * break_kind) * string) :=
  wrap_loop (String.length text) text max_characters_per_line.




(** The text of the runs added to the paragraph: every chunk followed
    by a newline, then the remaining text. *)
Definition runs_of (w : list (string * break_kind) * string) : list string :=
  map (fun c => fst c +:+ nl) (fst w) ++ [snd w].



(** No token of [s] that is followed by a space has a length that is a
    positive multiple of [n]; [run] is the length of the token read so
    far.  These are the tokens that a forced break would cut exactly at
    their end. *)
Fixpoint token_ends_clear (n run : nat) (s : string) : bool :=
  match s with
  | "" => true
  | String c r =>
      if Ascii.eqb c space
      then negb ((0 <? run)%nat && (run mod n =? 0)%nat) && token_ends_clear n 0 r
      else token_ends_clear n (S run) r
  end.


(** ** The raw record returned by [Entrez.read] for one [efetch] *)

Record AffiliationInfoEntry := mkAffiliation {
  Affiliation : option string
}.

Record Author := mkAuthor {
  LastName : option string;
  AffiliationInfo : option (list AffiliationInfoEntry)
}.

(** [article["MedlineCitation"]["Article"]] *)
Record ArticleD := mkArticle {
  ArticleTitle : option string;
  (** [Abstract]: the key may be absent; when present it may lack
      [AbstractText] *)
  ArticleAbstract : option (option (list string));
  (** [Journal]: the key may be absent; when present it may lack [Title] *)
  ArticleJournal : option (option string);
  ArticleDate : option (list DateEntry);
  ELocationID : option (list string);
  AuthorList : option (list Author)
}.

(** One element of [paper["PubmedArticle"]]: [MedlineCitation] may be
    absent, and when present may lack [Article]. *)
Record PubmedArticleEntry := mkEntry {
  MedlineCitation : option (option ArticleD)
}.

Record Paper := mkPaper {
  PubmedArticle : list PubmedArticleEntry
}.

(** ["MedlineCitation" in article and "Article" in article["MedlineCitation"]] *)
Definition article_of (article : PubmedArticleEntry) : option ArticleD :=
  match MedlineCitation article with
  | Some (Some a) => Some a
  | _ => None
  end.

(** [article[...]["Abstract"]["AbstractText"][0]]: [KeyError] when a key
    is missing, [IndexError] on an empty list. *)
Definition abstract_text (a : ArticleD) : result string :=
  match ArticleAbstract a with
  | Some (Some (t :: _)) => Ret t
  | Some (Some []) => Raise IndexError
  | _ => Raise KeyError
  end.

(** [[f"{author['LastName']}" for author in ...["AuthorList"]]] under
    [except KeyError]. *)
Fixpoint last_names (authors : list Author) : option (list string) :=
  match authors with
  | [] => Some []
  | author :: rest =>
      match LastName author with
      | Some n =>
          match last_names rest with
          | Some ns => Some (n :: ns)
          | None => None
          end
      | None => None
      end
  end.

Definition authors_of (a : ArticleD) : field (list string) :=
  match AuthorList a with
  | Some authors =>
      match last_names authors with
      | Some ns => Val ns
      | None => Str "No authors available"
      end
  | None => Str "No authors available"
  end.

(** The nested comprehension over [AffiliationInfo]; a missing
    [Affiliation] key raises [KeyError], which nothing catches. *)
Fixpoint affiliations_of_entries (entries : list AffiliationInfoEntry)
  : result (list string) :=
  match entries with
  | [] => Ret []
  | e :: rest =>
      match Affiliation e with
      | Some s => let! ss := affiliations_of_entries rest in Ret (s :: ss)
      | None => Raise KeyError
      end
  end.

Fixpoint affiliations_of_authors (authors : list Author) : result (list string) :=
  match authors with
  | [] => Ret []
  | author :: rest =>
      match AffiliationInfo author with
      | Some entries =>
          let! here := affiliations_of_entries entries in
          let! more := affiliations_of_authors rest in
          Ret (here ++ more)
      | None => affiliations_of_authors rest
      end
  end.

Definition institution_of (a : ArticleD) : result (option (list string)) :=
  match AuthorList a with
  | Some authors => let! l := affiliations_of_authors authors in Ret (Some l)
  | None => Ret None
  end.

(** How the body of the inner [for] ends for one article. *)
Inductive body_outcome :=
| Break
| Append (component : Component)
| Propagate (e : exn).

(** The body of [for article in paper["PubmedArticle"]] once the [if]
    test has passed. *)
Definition extract_article (a : ArticleD) : body_outcome :=
  match ArticleTitle a with
  | None => Break
  | Some title =>
      match abstract_text a with
      | Raise KeyError => Break
      | Raise e => Propagate e
      | Ret abstract =>
          match institution_of a with
          | Raise e => Propagate e
          | Ret institution =>
              Append {|
                Title := title;
                Abstract := Some abstract;
                Journal := match ArticleJournal a with
                           | Some (Some j) => Some j
                           | _ => None
                           end;
                Date := Some (match ArticleDate a with
                              | Some d => Val d
                              | None => Str "No date available"
                              end);
                Link := Some (match ELocationID a with
                              | Some l => Val l
                              | None => Str "No link available"
                              end);
                Authors := Some (authors_of a);
                Institution := institution
              |}
          end
      end
  end.

(** [for article in paper["PubmedArticle"]: ...], appending to
    [components]. *)
Fixpoint articles_loop (articles : list PubmedArticleEntry)
  (components : list Component) : result (list Component) :=
  match articles with
  | [] => Ret components
  | article :: rest =>
      match article_of article with
      | None => articles_loop rest components
      | Some a =>
          match extract_article a with
          | Break => Ret components
          | Propagate e => Raise e
          | Append component => articles_loop rest (components ++ [component])
          end
      end
  end.

(** [for paper in papers: ...] *)
Fixpoint papers_loop (papers : list Paper) (components : list Component)
  : result (list Component) :=
  match papers with
  | [] => Ret components
  | paper :: rest =>
      let! components := articles_loop (PubmedArticle paper) components in
      papers_loop rest components
  end.

Definition get_paper_info (papers : list Paper) : result (list Component) :=
  let! components := papers_loop papers [] in
  Ret (remove_duplicates components).

(** ** B. The report writer [get_pptx]

    A slide is modelled by its title, the text of the runs of each
    paragraph the code adds to its text box, and the cells of its table.
    Geometry, font sizes and colours are left out. *)

Record Slide := mkSlide {
  slide_title : option string;
  paragraphs : list (list string);
  table : list (string * string)
}.

Definition version : string := "3.0.0".
Definition update_date_numbers : string := "20240710".

(** [sep.join(items)] *)
Fixpoint join (sep : string) (items : list string) : string :=
  match items with
  | [] => ""
  | [x] => x
  | x :: rest => x +:+ sep +:+ join sep rest
  end.

(** Iterating over a [str] yields its characters. *)
Fixpoint chars (s : string) : list string :=
  match s with
  | "" => []
  | String c r => String c "" :: chars r
  end.

(** A value that is a list of strings, or a string iterated or indexed
    as one. *)
Definition items_of (f : field (list string)) : list string :=
  match f with
  | Val l => l
  | Str s => chars s
  end.

(** The text to wrap, as the runs of one paragraph: each chunk with a
    newline, then the remaining text. *)
Definition wrapped_runs (text : string) (max_characters_per_line : nat)
  : result (list string) :=
  match wrap text max_characters_per_line with
  | Some w => Ret (runs_of w)
  | None => Raise Diverges
  end.

(** A [dict] of counts in insertion order. *)
Fixpoint increment (key : string) (counts : list (string * nat)) : list (string * nat) :=
  match counts with
  | [] => [(key, 1)]
  | (k, n) :: rest =>
      if decide (k = key) then (k, S n) :: rest else (k, n) :: increment key rest
  end.

Definition count_all (keys : list string) : list (string * nat) :=
  fold_left (fun counts key => increment key counts) keys [].

(** [sorted(d, key=d.get, reverse=True)]: a stable sort, so keys of
    equal count stay in the order of the [dict]. *)
Fixpoint insert_by_count (x : string * nat) (sorted : list (string * nat))
  : list (string * nat) :=
  match sorted with
  | [] => [x]
  | y :: rest =>
      if (snd x <? snd y)%nat then y :: insert_by_count x rest else x :: y :: rest
  end.

Definition sorted_by_count (counts : list (string * nat)) : list (string * nat) :=
  foldr insert_by_count [] counts.

(** Lines 535-540: the text of the institutions line for a given
    [institution_count]. *)
Definition institution_text (institution_count : list (string * nat)) : string :=
  let top_two_institutions := take 2 (sorted_by_count institution_count) in
  let institution_info :=
    map (fun i => fst i +:+ " " +:+ pretty (snd i)) top_two_institutions in
  "Institutions: " +:+ join "; " institution_info.

(** [x[0]] on a list or a string. *)
Definition first_of {A} (l : list A) : result A :=
  match l with
  | x :: _ => Ret x
  | [] => Raise IndexError
  end.

(** Lines 469-479: what is added to the journal run for the date. *)
Definition date_line (c : Component) : result string :=
  match Date c with
  | Some (Val dates) =>
      let! date := first_of dates in
      match Year date, Month date, Day date with
      | Some y, Some m, Some d =>
          Ret ("Publication Date: " +:+ y +:+ "/" +:+ m +:+ "/" +:+ d +:+ nl)
      | _, _, _ => Ret ""
      end
  | Some (Str s) =>
      (* a one-character string holds neither "Year", "Month" nor "Day" *)
      let! _ := first_of (chars s) in Ret ""
  | None => Ret ("Publication Date: not available" +:+ nl)
  end.

Definition doi_line (c : Component) : result string :=
  match Link c with
  | Some link =>
      let! l := first_of (items_of link) in Ret ("DOI: " +:+ l +:+ nl)
  | None => Raise KeyError
  end.

(** The body of [for component in components] (lines 366-559).
    [institution_count] is a variable of [get_pptx]: it is unbound
    ([None]) until the first component with an ["Institution"] key
    assigns it, and keeps its value from one component to the next. *)
Definition component_slide (institution_count : option (list (string * nat)))
  (c : Component) : result (Slide * option (list (string * nat))) :=
  (* title *)
  let title_plain_text := strip_tags (Title c) in
  let! title_paragraphs :=
    if (75 <? String.length title_plain_text)%nat
    then let! runs := wrapped_runs title_plain_text 75 in Ret [ "" :: runs ]
    else Ret [ [""]; [title_plain_text] ] in
  (* abstract *)
  let! abstract_paragraph :=
    match Abstract c with
    | Some abstract =>
        let! runs := wrapped_runs (strip_tags abstract) 115 in Ret ("" :: runs)
    | None => Ret ["Abstract: Not available"]
    end in
  (* journal and date *)
  let journal_text :=
    match Journal c with
    | Some j => "Published in: " +:+ j +:+ nl
    | None => "Journal: Not available" +:+ nl
    end in
  let! date_text := date_line c in
  let! doi_text := doi_line c in
  (* authors *)
  let! authors_paragraph :=
    match Authors c with
    | Some authors =>
        let! runs := wrapped_runs ("Authors: " +:+ join ", " (items_of authors)) 170 in
        Ret ("" :: runs)
    | None => Ret ["Authors: Not available"]
    end in
  (* institutions *)
  let institution_count :=
    match Institution c with
    | Some institutions => Some (count_all institutions)
    | None => institution_count
    end in
  match institution_count with
  | None => Raise UnboundLocalError
  | Some counts =>
      let text := institution_text counts in
      let! institution_paragraph :=
        if (170 <? String.length text)%nat
        then let! runs := wrapped_runs text 170 in Ret ("" :: runs)
        else Ret [text] in
      Ret ({| slide_title := None;
              paragraphs :=
                title_paragraphs ++ [ [] ; abstract_paragraph; [];
                  [journal_text +:+ date_text]; [doi_text];
                  authors_paragraph; []; institution_paragraph ];
              table := [] |},
           institution_count)
  end.

(** [for component in components: ...] *)
Fixpoint component_slides (institution_count : option (list (string * nat)))
  (components : list Component) : result (list Slide) :=
  match components with
  | [] => Ret []
  | c :: rest =>
      let! r := component_slide institution_count c in
      let! slides := component_slides (snd r) rest in
      Ret (fst r :: slides)
  end.

(** Lines 310-314: [journal_data], the number of components per
    journal, in first-encountered order. *)
Definition journal_data (components : list Component) : list (string * nat) :=
  fold_left (fun counts c =>
               match Journal c with
               | Some journal_name => increment journal_name counts
               | None => counts
               end) components [].

(** ** Dates *)

(** [start_date] and [end_date] are [str] in default mode and
    [datetime] objects (at midnight) otherwise. *)
Inductive date_value :=
| DateString (s : string)
| DateTime (year month day : nat).

Definition digit (n : nat) : ascii := ascii_of_nat (48 + n mod 10).

Definition two_digits (n : nat) : string :=
  String (digit (n / 10)) (String (digit n) "").

Definition four_digits (n : nat) : string :=
  String (digit (n / 1000)) (String (digit (n / 100)) (two_digits n)).

(** [str(d)], which is what an f-string inserts: a [datetime] at
    midnight prints as [YYYY-MM-DD 00:00:00]. *)
Definition format_date (d : date_value) : string :=
  match d with
  | DateString s => s
  | DateTime y m d =>
      four_digits y +:+ "-" +:+ two_digits m +:+ "-" +:+ two_digits d +:+ " 00:00:00"
  end.

Definition digit_value (c : ascii) : option nat :=
  let n := nat_of_ascii c in
  if (48 <=? n)%nat && (n <=? 57)%nat then Some (n - 48) else None.

Definition is_leap (y : nat) : bool :=
  ((y mod 4 =? 0)%nat && negb (y mod 100 =? 0)%nat) || (y mod 400 =? 0)%nat.

Definition days_in_month (y m : nat) : nat :=
  match m with
  | 2 => if is_leap y then 29 else 28
  | 4 | 6 | 9 | 11 => 30
  | _ => 31
  end.

(** [%m]: [1[0-2]|0[1-9]|[1-9]], then the rest of the text. *)
Definition parse_month (s : string) : option (nat * string) :=
  match s with
  | String a (String b r) =>
      match digit_value a, digit_value b with
      | Some 1, Some x => if (x <=? 2)%nat then Some (10 + x, r) else Some (1, String b r)
      | Some 0, Some x => if (1 <=? x)%nat then Some (x, r) else None
      | Some x, _ => if (1 <=? x)%nat then Some (x, String b r) else None
      | None, _ => None
      end
  | String a "" =>
      match digit_value a with
      | Some x => if (1 <=? x)%nat then Some (x, "") else None
      | None => None
      end
  | "" => None
  end.

(** [%d]: [3[0-1]|[1-2]\d|0[1-9]|[1-9]| [1-9]], then the rest. *)
Definition parse_day (s : string) : option (nat * string) :=
  match s with
  | String a (String b r) =>
      match digit_value a, digit_value b with
      | Some 3, Some x => if (x <=? 1)%nat then Some (30 + x, r) else Some (3, String b r)
      | Some 1, Some x => Some (10 + x, r)
      | Some 2, Some x => Some (20 + x, r)
      | Some 0, Some x => if (1 <=? x)%nat then Some (x, r) else None
      | Some x, _ => if (1 <=? x)%nat then Some (x, String b r) else None
      | None, Some x =>
          if Ascii.eqb a space && (1 <=? x)%nat then Some (x, r) else None
      | None, None => None
      end
  | String a "" =>
      match digit_value a with
      | Some x => if (1 <=? x)%nat then Some (x, "") else None
      | None => None
      end
  | "" => None
  end.

(** [datetime.strptime(s, "%Y/%m/%d")]; [None] stands for [ValueError]. *)
Definition strptime (s : string) : option date_value :=
  match s with
  | String a (String b (String c (String d (String sep r)))) =>
      match digit_value a, digit_value b, digit_value c, digit_value d with
      | Some a, Some b, Some c, Some d =>
          let y := 1000 * a + 100 * b + 10 * c + d in
          if negb (Ascii.eqb sep "/") then None else
          match parse_month r with
          | Some (m, String sep' r') =>
              if negb (Ascii.eqb sep' "/") then None else
              match parse_day r' with
              | Some (dd, "") =>
                  if (1 <=? y)%nat && (dd <=? days_in_month y m)%nat
                  then Some (DateTime y m dd) else None
              | _ => None
              end
          | _ => None
          end
      | _, _, _, _ => None
      end
  | _ => None
  end.

(** ** The world: console, clock, network and file system *)

Inductive message :=
| MsgOpener
| MsgReadingConfig
| MsgStartDate (d : date_value)
| MsgEndDate (d : date_value)
| MsgLookingUp
| MsgSearchingJournal (journal : string)
| MsgRetry500
| MsgRetry429
| MsgHTTPErrorEncountered (e : HTTPError)
| MsgFailedToRetrieve (pmid : string)
| MsgGettingPaperInfo
| MsgCloser0   (* "No papers were found ..., publications.pptx has not been updated." *)
| MsgCloser1   (* "... publications.pptx has been updated!" *)
| MsgPreparePptx
| MsgAlreadyExists (pptx_name : string)
| MsgOther (text : string).

Inductive event :=
| Print (m : message)
| Sleep (seconds : nat)          (* [time.sleep] *)
| Esearch (term : string)        (* [Entrez.esearch] *)
| Efetch (pmid : string)         (* [Entrez.efetch] *)
| NewPresentation                (* [Presentation()] *)
| Save (name : string).          (* [presentation.save] *)

Inductive File :=
| OtherFile
| Pptx (slides : list Slide).

Record World := mkWorld {
  stdin : list string;          (* the lines [input] will read *)
  searches : nat;               (* [esearch] calls made so far *)
  fetches : nat;                (* [efetch] calls made so far *)
  trace : list event;           (* what happened, oldest first *)
  files : gmap string File
}.

Definition log (e : event) (w : World) : World :=
  mkWorld (stdin w) (searches w) (fetches w) (trace w ++ [e]) (files w).

(** What the remote service answers to one call. *)
Inductive search_reply :=
| SearchOk (IdList : list string)
| SearchHTTPError (e : HTTPError)
| SearchUnreadable.              (* [Entrez.read] fails *)

Inductive fetch_reply :=
| FetchOk (paper : Paper)
| FetchHTTPError (e : HTTPError)
| FetchFails (msg : string).     (* any other failure of [efetch] or [Entrez.read] *)

(** What the program cannot decide: the answers of the service, call by
    call, and the clock. *)
Record Environment := mkEnv {
  esearch_reply : nat -> search_reply;
  efetch_reply : nat -> fetch_reply;
  week_ago : string;   (* [(datetime.now() - timedelta(weeks=1)).strftime("%Y/%m/%d")] *)
  today : string       (* [datetime.now().strftime("%Y/%m/%d")] *)
}.

(** A computation that reads and changes the world and may raise. *)
Definition M (A : Type) : Type := World -> result A * World.

Definition ret {A} (a : A) : M A := fun w => (Ret a, w).
Definition raise {A} (e : exn) : M A := fun w => (Raise e, w).
Definition lift {A} (r : result A) : M A := fun w => (r, w).
Definition emit (e : event) : M unit := fun w => (Ret tt, log e w).

Definition mbind {A B} (m : M A) (k : A -> M B) : M B :=
  fun w =>
    match m w with
    | (Ret a, w') => k a w'
    | (Raise e, w') => (Raise e, w')
    end.

Notation "'do' x '<-' m ';' k" := (mbind m (fun x => k))
  (at level 10, x name, m at level 100, k at level 200).
Notation "m ';;' k" := (mbind m (fun _ => k))
  (at level 100, k at level 200, right associativity).

Record Config := mkConfig {
  email : string;
  journals : list string;
  topics : list string
}.

Section program.

Variable env : Environment.

(** [input(...)]: the next line of standard input. *)
Definition input : M string :=
  fun w =>
    match stdin w with
    | line :: rest =>
        (Ret line, mkWorld rest (searches w) (fetches w) (trace w) (files w))
    | [] => (Raise (OtherError "EOFError"), w)
    end.

(** [get_pmids] *)
Definition get_pmids (combined_query : string) : M (list string) :=
  fun w =>
    let w' := mkWorld (stdin w) (S (searches w)) (fetches w)
                (trace w ++ [Esearch combined_query]) (files w) in
    match esearch_reply env (searches w) with
    | SearchOk pmids => (Ret pmids, w')
    | SearchUnreadable =>
        (Raise (ValueError ("Entrez.read error. Error reading XML for query "
                            +:+ combined_query)), w')
    | SearchHTTPError e =>
        (* [raise HTTPError(f"...")]: the constructor takes five arguments *)
        (Raise TypeError, w')
    end.

(** [get_paper] *)
Definition get_paper (pmid : string) : M Paper :=
  fun w =>
    let w' := mkWorld (stdin w) (searches w) (S (fetches w))
                (trace w ++ [Efetch pmid]) (files w) in
    match efetch_reply env (fetches w) with
    | FetchOk paper => (Ret paper, w')
    | FetchFails msg => (Raise (OtherError msg), w')
    | FetchHTTPError e =>
        match response_status_code e with
        | None => (Raise AttributeError, w')       (* [e.response] *)
        | Some status =>
            if (status =? 500)%Z then
              (* falls through to [return paper], which was never bound *)
              (Raise UnboundLocalError, log (Sleep 10) (log (Print MsgRetry500) w'))
            else if (status =? 429)%Z then
              (Raise UnboundLocalError, log (Sleep 10) (log (Print MsgRetry429) w'))
            else (Raise (HTTPErrorExn e), w')
        end
    end.

(** [for _ in range(attempt_number): try: ... except HTTPError: ...] *)
Fixpoint attempts (n : nat) (pmid : string) (papers : list Paper)
  : M (list Paper) :=
  match n with
  | O => ret papers
  | S n' =>
      fun w =>
        match get_paper pmid w with
        | (Ret paper, w') => attempts n' pmid (papers ++ [paper]) w'
        | (Raise (HTTPErrorExn e), w') =>
            attempts n' pmid papers
              (log (Print (MsgFailedToRetrieve pmid))
                 (log (Print (MsgHTTPErrorEncountered e)) w'))
        | (Raise e, w') => (Raise e, w')
        end
  end.

(** [for pmid in pmids: time.sleep(1); ...] *)
Fixpoint pmids_loop (attempt_number : Z) (pmids : list string)
  (papers : list Paper) : M (list Paper) :=
  match pmids with
  | [] => ret papers
  | pmid :: rest =>
      emit (Sleep 1) ;;
      do papers <- attempts (Z.to_nat attempt_number) pmid papers;
      pmids_loop attempt_number rest papers
  end.

(** The f-string of line 683. *)
Definition combined_query (keyword_query : string) (start_date end_date : date_value)
  (journal_of_interest : string) : string :=
  keyword_query +:+ " AND (" +:+ dquote +:+ format_date start_date
    +:+ dquote +:+ "[Date - Entry] : " +:+ dquote
    +:+ format_date end_date +:+ dquote +:+ "[Date - Entry]) AND "
    +:+ dquote +:+ journal_of_interest +:+ dquote
    +:+ "[Journal]".

(** [for keyword_query in keywords: ...] *)
Fixpoint keywords_loop (attempt_number : Z) (start_date end_date : date_value)
  (journal_of_interest : string) (keywords : list string)
  (papers : list Paper) : M (list Paper) :=
  match keywords with
  | [] => ret papers
  | keyword_query :: rest =>
      do pmids <- get_pmids
        (combined_query keyword_query start_date end_date journal_of_interest);
      do papers <- pmids_loop attempt_number pmids papers;
      keywords_loop attempt_number start_date end_date journal_of_interest rest papers
  end.

(** [for journal_of_interest in journals: ...] *)
Fixpoint journals_loop (attempt_number : Z) (start_date end_date : date_value)
  (journals : list string) (keywords : list string)
  (papers : list Paper) : M (list Paper) :=
  match journals with
  | [] => ret papers
  | journal_of_interest :: rest =>
      emit (Print (MsgSearchingJournal journal_of_interest)) ;;
      do papers <- keywords_loop attempt_number start_date end_date
        journal_of_interest keywords papers;
      journals_loop attempt_number start_date end_date rest keywords papers
  end.

Definition lookup_pubmed (config_file_dict : Config)
  (start_end_date : date_value * date_value) (attempt_number : Z)
  : M (list Paper) :=
  journals_loop attempt_number (fst start_end_date) (snd start_end_date)
    (journals config_file_dict) (topics config_file_dict) [].

(** [s.lower()] on the letters A to Z, which is all the comparison
    with ["y"], ["yes"] and [""] depends on. *)
Definition lower_char (c : ascii) : ascii :=
  let n := nat_of_ascii c in
  if (65 <=? n)%nat && (n <=? 90)%nat then ascii_of_nat (n + 32) else c.

Fixpoint lower (s : string) : string :=
  match s with
  | "" => ""
  | String c r => String (lower_char c) (lower r)
  end.

Definition validate_date (date : string) : M unit :=
  match strptime date with
  | Some _ => ret tt
  | None => raise (ValueError "Incorrect date format, should be YYYY/MM/DD")
  end.

(** [datetime.strptime(date, "%Y/%m/%d")] as a statement of its own. *)
Definition strptime_or_raise (date : string) : M date_value :=
  match strptime date with
  | Some d => ret d
  | None => raise (ValueError "time data does not match format")
  end.

Definition ask_user_date (end_date_default : string) : M (date_value * date_value) :=
  emit (Print (MsgOther nl)) ;;
  do running_mode <- input;
  do dates <-
    (if bool_decide (lower running_mode ∈ ["y"; "yes"; ""])
     then ret (DateString (week_ago env), DateString end_date_default)
     else
       do start_date <- input;
       validate_date start_date ;;
       do end_date <- input;
       do end_date <-
         (if bool_decide (end_date = "")
          then ret end_date_default
          else (validate_date end_date ;; ret end_date));
       do start_date <- strptime_or_raise start_date;
       do end_date <- strptime_or_raise end_date;
       ret (start_date, end_date));
  emit (Print (MsgStartDate (fst dates))) ;;
  emit (Print (MsgEndDate (snd dates))) ;;
  ret dates.

(** The slides of lines 206-363: introduction, query information,
    keywords and the table of journals. *)
Definition front_slides (start_end_date : date_value * date_value)
  (config_file_dict : Config) (components : list Component)
  : result (list Slide) :=
  let '(start_date, end_date) := start_end_date in
  let end_text :=
    match end_date with
    | DateString s => if bool_decide (s = "3000/01/01") then today env else s
    | DateTime _ _ _ => format_date end_date
    end in
  let combined_keyword_queries := join ", " (topics config_file_dict) in
  let! keyword_paragraphs :=
    if (100 <? String.length combined_keyword_queries)%nat
    then let! runs := wrapped_runs combined_keyword_queries 100 in Ret [ runs ]
    else Ret [ []; [combined_keyword_queries] ] in
  Ret [
    {| slide_title := Some ("Journal Lookup Tool v" +:+ version);
       paragraphs := [ ["By AP Ledray, updated " +:+ update_date_numbers];
                       ["contact: aaronledray@gmail.com"]; [""] ];
       table := [] |};
    {| slide_title := Some "Query Information (1):";
       paragraphs :=
         [ ["Username: " +:+ email config_file_dict]; [""];
           ["Query start date: " +:+ format_date start_date +:+ nl
            +:+ "Query end date: " +:+ end_text +:+ nl]; [""];
           ["Query journals:"] ]
         ++ map (fun journal => [journal]) (journals config_file_dict);
       table := [] |};
    {| slide_title := Some "Query Information (2):";
       paragraphs := ["Query keywords:"] :: keyword_paragraphs;
       table := [] |};
    {| slide_title := Some "Journals Found:";
       paragraphs := [];
       table := ("Journal", "Number of Articles")
                :: map (fun row => (fst row, pretty (snd row)))
                     (journal_data components) |}
  ].

Definition build_presentation (start_end_date : date_value * date_value)
  (config_file_dict : Config) (components : list Component)
  : result (list Slide) :=
  let! front := front_slides start_end_date config_file_dict components in
  let! pages := component_slides None components in
  Ret (front ++ pages).

(** [presentation.save(name)] *)
Definition save (name : string) (slides : list Slide) : M unit :=
  fun w =>
    (Ret tt, mkWorld (stdin w) (searches w) (fetches w)
               (trace w ++ [Save name]) (<[name := Pptx slides]> (files w))).

(** [os.path.exists(name)] *)
Definition exists_file (name : string) : M bool :=
  fun w => (Ret (bool_decide (is_Some (files w !! name))), w).

Definition get_pptx (start_end_date : date_value * date_value)
  (config_file_dict : Config) (components : list Component)
  (pptx_name : string) : M unit :=
  do there <- exists_file pptx_name;
  if there : bool
  then emit (Print (MsgAlreadyExists pptx_name))
  else
    emit NewPresentation ;;
    do slides <- lift (build_presentation start_end_date config_file_dict components);
    save "publications.pptx" slides.

(** [main].  [config_file] is what [read_config_file('config.txt')]
    does: it raises, or returns the dictionary, or returns [None] when
    there is no [config.txt]. *)
Definition main (config_file : result (option Config)) : M unit :=
  emit (Print MsgOpener) ;;
  emit (Print MsgReadingConfig) ;;
  do config_file_dict <- lift config_file;
  do start_end_date <- ask_user_date "3000/01/01";
  emit (Print MsgLookingUp) ;;
  do config_file_dict <-
    (match config_file_dict with
     | Some d => ret d
     | None => raise TypeError      (* [config_file_dict['email']] *)
     end);
  do papers <- lookup_pubmed config_file_dict start_end_date 2;
  emit (Print MsgGettingPaperInfo) ;;
  do components <- lift (get_paper_info papers);
  (if (length components =? 0)%nat
   then emit (Print MsgCloser0)
   else emit (Print MsgCloser1)) ;;
  emit (Print MsgPreparePptx) ;;
  get_pptx start_end_date config_file_dict components "publications.pptx".

End program.

(** ** Reading the extraction loop *)

(** The article passes the [if] test and its body ends in [break]. *)
Definition breaks (entry : PubmedArticleEntry) : bool :=
  match article_of entry with
  | Some a =>
      match extract_article a with
      | Break => true
      | _ => false
      end
  | None => false
  end.

(** The article passes the [if] test and its body appends [c]. *)
Definition yields (entry : PubmedArticleEntry) (c : Component) : Prop :=
  ∃ a, article_of entry = Some a ∧ extract_article a = Append c.

(** [entry] is in [articles] and no article before it breaks the loop. *)
Definition reached (articles : list PubmedArticleEntry) (entry : PubmedArticleEntry)
  : Prop :=
  ∃ before after,
    articles = before ++ entry :: after ∧ Forall (λ e, breaks e = false) before.

(** [c] is the record of an article reached in one of the [papers]. *)
Definition extracted (papers : list Paper) (c : Component) : Prop :=
  ∃ paper entry,
    paper ∈ papers ∧ reached (PubmedArticle paper) entry ∧ yields entry c.

(** ** Properties of a trace *)

(** Every [efetch] call comes right after a pause of one second. *)
Fixpoint pause_before_every_fetch_from (previous : option event) (t : list event)
  : bool :=
  match t with
  | [] => true
  | e :: rest =>
      match e, previous with
      | Efetch _, Some (Sleep 1) => true
      | Efetch _, _ => false
      | _, _ => true
      end
      && pause_before_every_fetch_from (Some e) rest
  end.

Definition pause_before_every_fetch (t : list event) : bool :=
  pause_before_every_fetch_from None t.

Definition is_sleep (seconds : nat) (e : event) : bool :=
  match e with
  | Sleep n => (n =? seconds)%nat
  | _ => false
  end.

Definition is_fetch (e : event) : bool :=
  match e with
  | Efetch _ => true
  | _ => false
  end.

Fixpoint count (p : event -> bool) (t : list event) : nat :=
  match t with
  | [] => 0
  | e :: rest => (if p e then 1 else 0) + count p rest
  end.

(** The number of pauses of [seconds] seconds. *)
Definition count_sleeps (seconds : nat) (t : list event) : nat :=
  count (is_sleep seconds) t.

(** The number of [efetch] calls. *)
Definition count_fetches (t : list event) : nat := count is_fetch t.








(** The terms of the [esearch] calls, in order. *)
Definition searches_of (t : list event) : list string :=
  omap (λ e, match e with Esearch term => Some term | _ => None end) t.

(** One query per journal and topic, journals outermost. *)
Definition planned_queries (start_date end_date : date_value)
  (journals topics : list string) : list string :=
  concat (map (λ journal,
                 map (λ topic, combined_query topic start_date end_date journal)
                   topics)
            journals).

(** ** Sample inputs *)

Definition sample_config : Config :=
  mkConfig "reader@example.org" ["Nature"] ["crispr"].

Definition sample_article (title : string) : PubmedArticleEntry :=
  mkEntry (Some (Some (mkArticle (Some title) (Some (Some ["An abstract."]))
    (Some (Some "Nature")) None (Some ["10.1000/1"])
    (Some [mkAuthor (Some "Doe") (Some [mkAffiliation (Some "MIT")])])))).

(** An article with no [ArticleTitle]. *)
Definition untitled_article : PubmedArticleEntry :=
  mkEntry (Some (Some (mkArticle None (Some (Some ["An abstract."]))
    None None None None))).

Definition sample_paper : Paper := mkPaper [sample_article "A title"].

(** A service that finds one identifier per query and always returns
    the record. *)
Definition always_found : Environment :=
  mkEnv (λ _, SearchOk ["38000001"]) (λ _, FetchOk sample_paper)
    "2024/07/03" "2024/07/10".

(** A service that finds nothing. *)
Definition nothing_found : Environment :=
  mkEnv (λ _, SearchOk []) (λ _, FetchFails "not called")
    "2024/07/03" "2024/07/10".

(** A service that answers the first two fetches with [e] and the third
    with the record. *)
Definition twice_refused (e : HTTPError) : Environment :=
  mkEnv (λ _, SearchOk ["38000001"])
    (λ n, match n with
          | 0 | 1 => FetchHTTPError e
          | _ => FetchOk sample_paper
          end)
    "2024/07/03" "2024/07/10".

(** The user accepts the default mode; no file exists yet. *)
Definition fresh_world : World := mkWorld ["y"] 0 0 [] ∅.

(** The user accepts the default mode; [publications.pptx] exists. *)
Definition world_with_output : World :=
  mkWorld ["y"] 0 0 [] {["publications.pptx" := OtherFile]}.

Definition default_dates : date_value * date_value :=
  (DateString "2024/07/03", DateString "3000/01/01").

(** The query for [crispr] in [Nature] with the two dates as given. *)
Definition query_with_dates (start_date end_date : string) : string :=
  "crispr AND (" +:+ dquote +:+ start_date +:+ dquote +:+ "[Date - Entry] : "
  +:+ dquote +:+ end_date +:+ dquote +:+ "[Date - Entry]) AND "
  +:+ dquote +:+ "Nature" +:+ dquote +:+ "[Journal]".

Definition sample_query : string := query_with_dates "2024/07/03" "3000/01/01".

(** The user declines the default mode and enters two dates. *)
Definition world_with_dates (start_date end_date : string) : World :=
  mkWorld ["n"; start_date; end_date] 0 0 [] ∅.

(** A complete article with no [AuthorList]. *)
Definition article_without_authors (title : string) : PubmedArticleEntry :=
  mkEntry (Some (Some (mkArticle (Some title) (Some (Some ["An abstract."]))
    (Some (Some "Nature")) None (Some ["10.1000/2"]) None))).

(** The record [get_paper_info] builds from [sample_article title]. *)
Definition sample_component_of_article (title : string) : Component :=
  mkComponent title (Some "An abstract.") (Some "Nature")
    (Some (Str "No date available")) (Some (Val ["10.1000/1"]))
    (Some (Val ["Doe"])) (Some ["MIT"]).

(** Two raw records: the first holds a complete article, an untitled
    one and another complete one; the second holds one complete article. *)
Definition sample_papers : list Paper :=
  [mkPaper [sample_article "A"; untitled_article; sample_article "B"];
   mkPaper [sample_article "C"]].

(** The text of the runs of the last paragraph of each slide. *)
Definition last_paragraphs (slides : list Slide) : list (list string) :=
  map (λ s, List.last (paragraphs s) []) slides.

(** ** Counting *)

(** Whether the character [c] occurs in [s]. *)
Fixpoint has_char (c : ascii) (s : string) : bool :=
  match s with
  | "" => false
  | String d r => Ascii.eqb d c || has_char c r
  end.

(** How often [key] occurs in [keys]. *)
Fixpoint occurrences (key : string) (keys : list string) : nat :=
  match keys with
  | [] => 0
  | k :: rest => (if decide (k = key) then 1 else 0) + occurrences key rest
  end.

(** The count stored under [key], 0 when there is none. *)
Fixpoint count_of (key : string) (counts : list (string * nat)) : nat :=
  match counts with
  | [] => 0
  | (k, n) :: rest => if decide (k = key) then n else count_of key rest
  end.

(** The entries of [counts] whose count is [n], in the order of [counts]. *)
Fixpoint with_count (n : nat) (counts : list (string * nat)) : list (string * nat) :=
  match counts with
  | [] => []
  | x :: rest => if (snd x =? n)%nat then x :: with_count n rest else with_count n rest
  end.

(** ** Reading a component *)

(** [component["Date"][0]] can be read: the key is absent (the [else]
    branch of line 478), or its value is neither an empty list nor an
    empty string. *)
Definition date_readable (c : Component) : bool :=
  match Date c with
  | Some (Val []) | Some (Str "") => false
  | _ => true
  end.

(** [component["Link"][0]] can be read. *)
Definition link_readable (c : Component) : bool :=
  match Link c with
  | Some (Val (_ :: _)) | Some (Str (String _ _)) => true
  | _ => false
  end.

(** ** Reading a raw article *)

(** Some entry of some author's [AffiliationInfo] has no [Affiliation]. *)
Definition affiliation_missing (a : ArticleD) : Prop :=
  ∃ authors author entries entry,
    AuthorList a = Some authors ∧ author ∈ authors
    ∧ AffiliationInfo author = Some entries ∧ entry ∈ entries
    ∧ Affiliation entry = None.

(** An article with a title and an abstract and nothing else. *)
Definition bare_article (title : string) : PubmedArticleEntry :=
  mkEntry (Some (Some (mkArticle (Some title) (Some (Some ["An abstract."]))
    None None None None))).

(** The record [get_paper_info] builds from [bare_article title]. *)
Definition bare_component (title : string) : Component :=
  mkComponent title (Some "An abstract.") None
    (Some (Str "No date available")) (Some (Str "No link available"))
    (Some (Str "No authors available")) None.

(** An article whose [AbstractText] is an empty list. *)
Definition article_with_empty_abstract (title : string) : PubmedArticleEntry :=
  mkEntry (Some (Some (mkArticle (Some title) (Some (Some []))
    None None None None))).

(** ** Reading a run *)



(** What a returning run of a loop has added to the world: the events
    [t], of which [pauses] are pauses of one second and [calls] are
    fetches, none a pause of ten seconds, and at most [calls] papers. *)
Definition paced (pauses calls : nat) (papers papers' : list Paper)
  (w w' : World) : Prop :=
  searches w ≤ searches w'
  ∧ ∃ t, trace w' = trace w ++ t
      ∧ count_sleeps 1 t = pauses ∧ count_fetches t = calls
      ∧ count_sleeps 10 t = 0
      ∧ ∃ added, papers' = papers ++ added ∧ length added ≤ calls.

(** ** Writing a date *)

(** [d.strftime("%Y/%m/%d")] for a date of a four-digit year: the form
    the prompts of [ask_user_date] ask for. *)
Definition strftime (year month day : nat) : string :=
  four_digits year +:+ "/" +:+ two_digits month +:+ "/" +:+ two_digits day.

(** A date of the calendar that [datetime] can hold. *)
Definition calendar_date (year month day : nat) : Prop :=
  1 ≤ year < 10 * 1000 ∧ 1 ≤ month ≤ 12 ∧ 1 ≤ day ≤ days_in_month year month.

(** From [w] to [w'] the service was not called and no file changed. *)
Definition no_call (w w' : World) : Prop :=
  searches w' = searches w ∧ fetches w' = fetches w ∧ files w' = files w.

Definition no_call_action {A} (m : M A) : Prop := ∀ w, no_call w (snd (m w)).

(** ** B. The reader [read_config_file] *)

(** [s.split(sep)] for a non-empty [sep]: the parts between the
    occurrences of [sep], found left to right without overlap.  [skip]
    counts the characters of the occurrence being passed over. *)
Fixpoint split_at (sep : string) (skip : nat) (s : string) : list string :=
  match s with
  | "" => [""]
  | String c r =>
      match skip with
      | S k => split_at sep k r
      | O => if String.prefix sep s
             then "" :: split_at sep (String.length sep - 1) r
             else match split_at sep 0 r with
                  | part :: parts => String c part :: parts
                  | [] => [String c ""]
                  end
      end
  end.

Definition str_split (sep s : string) : list string := split_at sep 0 s.

(** [s.count(c)] for a single character [c]. *)
Fixpoint count_char (c : ascii) (s : string) : nat :=
  match s with
  | "" => 0
  | String d r => (if Ascii.eqb d c then 1 else 0) + count_char c r
  end.

(** [s.rstrip()] and [s.strip()]. *)
Fixpoint rstrip (s : string) : string :=
  match s with
  | "" => ""
  | String c r =>
      match rstrip r with
      | "" => if py_isspace c then "" else String c ""
      | r' => String c r'
      end
  end.

Definition str_strip (s : string) : string := rstrip (lstrip s).

(** The line boundaries of [str.splitlines], for code points below 256:
    LF, VT, FF, CR, FS, GS, RS and NEL; CR LF counts as one. *)
Definition line_break (c : ascii) : bool :=
  let n := nat_of_ascii c in
  ((10 <=? n)%nat && (n <=? 13)%nat) || ((28 <=? n)%nat && (n <=? 30)%nat)
  || (n =? 133)%nat.

Definition is_cr (c : ascii) : bool := Ascii.eqb c (ascii_of_nat 13).
Definition is_lf (c : ascii) : bool := Ascii.eqb c (ascii_of_nat 10).

(** [after_cr]: the character before was a CR that ended a line, so a
    LF here belongs to the same boundary. *)
Fixpoint splitlines_from (after_cr : bool) (s : string) : list string :=
  match s with
  | "" => []
  | String c r =>
      if after_cr && is_lf c then splitlines_from false r
      else if line_break c then "" :: splitlines_from (is_cr c) r
      else match splitlines_from false r with
           | line :: rest => String c line :: rest
           | [] => [String c ""]
           end
  end.

Definition splitlines (s : string) : list string := splitlines_from false s.

Definition paragraph_separator : string := nl +:+ nl.

Definition improperly_formatted : string :=
  "config.txt improperly formatted. " +:+
  "Please make sure there are three paragraphs separated by two newlines".

(** [read_config_file].  [config_txt] is the file system's part:
    [None] when [os.path.exists(config_file)] is false, otherwise the
    text that [f.read()] returns.  Without a file the function falls off
    its end and returns [None]. *)
Definition read_config_file (config_txt : option string) : M (option Config) :=
  match config_txt with
  | None => ret None
  | Some lines =>
      emit (Print (MsgOther "config.txt found!")) ;;
      if (String.length lines =? 0)%nat
      then raise (ValueError "config.txt is empty")
      else
        match str_split paragraph_separator lines with
        | [email; journals; topic] =>
            if negb (count_char "@" email =? 1)%nat
            then raise (ValueError "Please provide only one email")
            else
              emit (Print (MsgOther ("Email: " +:+ email))) ;;
              emit (Print (MsgOther nl)) ;;
              emit (Print (MsgOther ("Journals: " +:+ nl +:+ journals))) ;;
              emit (Print (MsgOther nl)) ;;
              emit (Print (MsgOther ("Topics: " +:+ nl +:+ topic))) ;;
              ret (Some (mkConfig (str_strip email) (splitlines journals)
                           (splitlines topic)))
        | _ => raise (ValueError improperly_formatted)
        end
  end.

(** A line of a paragraph: not empty, without a line boundary. *)
Fixpoint line_free (s : string) : bool :=
  match s with
  | "" => true
  | String c r => negb (line_break c) && line_free r
  end.

Definition config_line (s : string) : Prop := s ≠ "" ∧ line_free s = true.

(** The text of a configuration file with the given paragraphs. *)
Definition config_text (email : string) (journals topics : list string) : string :=
  email +:+ paragraph_separator +:+ join nl journals
        +:+ paragraph_separator +:+ join nl topics.


(** A paragraph: no empty line inside and no line feed at its end. *)
Fixpoint paragraph (s : string) : bool :=
  match s with
  | "" => true
  | String c r =>
      if is_lf c
      then match r with
           | "" => false
           | String d _ => negb (is_lf d) && paragraph r
           end
      else paragraph r
  end.

(** A configuration file on disk. *)
Definition sample_config_text : string :=
  config_text "someone@example.org" ["Nature"; "Science"] ["crispr"; "phage"].

(** * Properties *)

(** ** Strings and the wrapping loop *)

Section string_facts.

Lemma append_assoc (a b c : string) : (a +:+ b) +:+ c = a +:+ (b +:+ c).
Proof. induction a as [|x a IH]; simpl; [done | by rewrite IH]. Qed.

Lemma length_append (a b : string) :
  String.length (a +:+ b) = String.length a + String.length b.
Proof. induction a as [|x a IH]; simpl; [done | by rewrite IH]. Qed.



Lemma length_drop_str n s : String.length (drop_str n s) = String.length s - n.
Proof.
  revert s; induction n as [|n IH]; intros [|c r]; simpl; try done.
Qed.

Lemma length_lstrip s : String.length (lstrip s) ≤ String.length s.
Proof.
  induction s as [|c r IH]; simpl; [done|].
  destruct (py_isspace c); simpl; lia.
Qed.

Lemma py_isspace_space : py_isspace space = true.
Proof. done. Qed.

Lemma eqb_space c : Ascii.eqb c space = true → c = space.
Proof. apply Ascii.eqb_eq. Qed.

(** What [rfind] returns is below the bound and is the index of a space. *)
Lemma rfind_space_Some s n i :
  rfind_space s n = Some i →
  i < n ∧ ∃ r, drop_str i s = String space r.
Proof.
  revert s i; induction n as [|n IH]; intros [|c r] i; simpl; try done.
  destruct (rfind_space r n) as [j|] eqn:Hj.
  - intros [= <-]. destruct (IH _ _ Hj) as [? [r' ?]].
    split; [lia | by exists r'].
  - destruct (Ascii.eqb c space) eqn:Hc; [|done].
    intros [= <-]. apply eqb_space in Hc as ->.
    split; [lia | by exists r].
Qed.








End string_facts.

Section wrap_facts.

Variable max_characters_per_line : nat.
Hypothesis max_pos : 0 < max_characters_per_line.

(** Each pass of the loop shortens the text. *)
Lemma wrap_step_shorter text chunk k rest :
  max_characters_per_line < String.length text →
  wrap_step text max_characters_per_line = (chunk, k, rest) →
  String.length rest < String.length text.
Proof.
  unfold wrap_step. intros Hlen.
  destruct (rfind_space text max_characters_per_line) as [i|] eqn:Hi.
  - intros [= _ _ <-]. destruct (rfind_space_Some _ _ _ Hi) as [Hlt [r Hr]].
    rewrite Hr. cbn [lstrip]. rewrite py_isspace_space.
    pose proof (length_lstrip r). pose proof (length_drop_str i text) as Hd.
    rewrite Hr in Hd. simpl in Hd. lia.
  - intros [= _ _ <-].
    pose proof (length_lstrip (drop_str max_characters_per_line text)).
    pose proof (length_drop_str max_characters_per_line text). lia.
Qed.


(** The loop ends within [len(text)] passes. *)
Lemma wrap_loop_terminates fuel text :
  String.length text ≤ fuel →
  is_Some (wrap_loop fuel text max_characters_per_line).
Proof.
  revert text; induction fuel as [|fuel IH]; intros text Hfuel; simpl.
  - destruct (Nat.leb_spec (String.length text) max_characters_per_line);
      [done | lia].
  - destruct (Nat.leb_spec (String.length text) max_characters_per_line);
      [done|].
    destruct (wrap_step text max_characters_per_line) as [[chunk k] rest] eqn:Hs.
    pose proof (wrap_step_shorter _ _ _ _ ltac:(done) Hs).
    destruct (IH rest ltac:(lia)) as [[chunks last] ->]. done.
Qed.





End wrap_facts.

(** The example of the specification. *)
Example wrap_quick_brown_fox :
  wrap "The quick brown fox jumps" 10
  = Some ([("The quick", Soft); ("brown fox", Soft)], "jumps").
Proof. reflexivity. Qed.

(** A forced break inside a long token loses nothing. *)
Example wrap_long_token :
  wrap "abcdefghijkl mn" 5 = Some ([("abcde", Hard); ("fghij", Hard)], "kl mn")
  ∧ token_ends_clear 5 0 "abcdefghijkl mn" = true.
Proof. split; reflexivity. Qed.

(** A forced break at the very end of a token loses the space after it. *)
Example wrap_token_of_budget_length :
  wrap "aaaaa bbb" 5 = Some ([("aaaaa", Hard)], "bbb")
  ∧ token_ends_clear 5 0 "aaaaa bbb" = false.
Proof. split; reflexivity. Qed.




(** ** The deduplicator *)

Section remove_duplicates_facts.

Implicit Types (seen : gset string) (components : list Component).

Lemma remove_duplicates_from_sublist seen components :
  remove_duplicates_from seen components `sublist_of` components.
Proof.
  revert seen; induction components as [|x l IH]; intros seen; simpl; [done|].
  case_decide.
  - by apply sublist_cons.
  - by apply sublist_skip.
Qed.

Lemma remove_duplicates_from_unseen seen components x :
  x ∈ remove_duplicates_from seen components → Title x ∉ seen.
Proof.
  revert seen; induction components as [|y l IH]; intros seen; simpl.
  - by intros ?%elem_of_nil.
  - case_decide as Hy.
    + apply IH.
    + intros [->|Hx]%elem_of_cons; [done|].
      apply IH in Hx. set_solver.
Qed.

Lemma remove_duplicates_from_NoDup seen components :
  NoDup (map Title (remove_duplicates_from seen components)).
Proof.
  revert seen; induction components as [|y l IH]; intros seen; simpl.
  - constructor.
  - case_decide; [apply IH|]. simpl. constructor; [|apply IH].
    intros (x & Hxy & Hx)%list_elem_of_fmap.
    apply remove_duplicates_from_unseen in Hx. set_solver.
Qed.

Lemma remove_duplicates_from_titles seen components t :
  t ∈ map Title (remove_duplicates_from seen components)
  ↔ t ∈ map Title components ∧ t ∉ seen.
Proof.
  revert seen; induction components as [|y l IH]; intros seen; simpl.
  - split; [by intros ?%elem_of_nil | by intros [?%elem_of_nil _]].
  - case_decide as Hy.
    + rewrite IH, elem_of_cons. split; [tauto|].
      intros [[->|?] ?]; [contradiction | tauto].
    + simpl. rewrite !elem_of_cons, IH. split.
      * intros [->|[? Ht]]; [tauto|]. split; [tauto|]. set_solver.
      * intros [[->|?] ?]; [tauto|].
        destruct (decide (t = Title y)) as [->|?]; [tauto|]. right.
        split; [done|]. set_solver.
Qed.

(** The loop run on a list extended by one record. *)
Lemma remove_duplicates_from_snoc seen components x :
  remove_duplicates_from seen (components ++ [x])
  = remove_duplicates_from seen components
    ++ (if decide (Title x ∈ seen ∨ Title x ∈ map Title components)
        then [] else [x]).
Proof.
  revert seen; induction components as [|y l IH]; intros seen; simpl.
  - destruct (decide (Title x ∈ seen)) as [Hx|Hx].
    + by rewrite decide_True by tauto.
    + rewrite decide_False; [done|]. rewrite elem_of_nil. tauto.
  - destruct (decide (Title y ∈ seen)) as [Hy|Hy]; rewrite IH;
      [|simpl; f_equal]; f_equal; apply decide_ext;
      rewrite ?elem_of_cons, ?elem_of_union, ?elem_of_singleton.
    + split; [tauto|]. intros [?|[Hxy|?]]; [tauto| |tauto].
      left. by rewrite Hxy.
    + tauto.
Qed.

End remove_duplicates_facts.

Example remove_duplicates_A_B_A_C :
  map Title (remove_duplicates
    (map (λ t, mkComponent t None None None None None None) ["A"; "B"; "A"; "C"]))
  = ["A"; "B"; "C"].
Proof. vm_compute. reflexivity. Qed.

(** C9: [remove_duplicates] keeps the first record of each title and
    drops every later record whose title was already seen (the equation
    for a list extended by one record), the kept records are in their
    input order (a sublist of the input), every title of the input is
    still present, and no two kept records share a title. *)
Theorem remove_duplicates_first_occurrences (components : list Component) :
  remove_duplicates components `sublist_of` components
  ∧ NoDup (map Title (remove_duplicates components))
  ∧ (∀ t, t ∈ map Title (remove_duplicates components) ↔ t ∈ map Title components)
  ∧ remove_duplicates [] = []
  ∧ (∀ before x,
       remove_duplicates (before ++ [x])
       = remove_duplicates before
         ++ (if decide (Title x ∈ map Title before) then [] else [x])).
Proof.
  unfold remove_duplicates. split; [apply remove_duplicates_from_sublist|].
  split; [apply remove_duplicates_from_NoDup|].
  split; [intros t; rewrite remove_duplicates_from_titles; set_solver|].
  split; [done|].
  intros before x. rewrite remove_duplicates_from_snoc.
  f_equal. apply decide_ext. rewrite elem_of_empty. tauto.
Qed.

(** ** The retrieval loop *)

Section retrieval_facts.

Variable env : Environment.


(** On a 500 or a 429, read from [e.response.status_code], the function
    sleeps ten seconds and then fails at [return paper]; without a
    [response] attribute it fails before sleeping.  In neither case does
    an [HTTPError] reach the caller. *)
Lemma get_paper_retryable pmid e w :
  efetch_reply env (fetches w) = FetchHTTPError e →
  code e = 429%Z ∨ code e = 500%Z →
  response_status_code e = None ∨ response_status_code e = Some (code e) →
  ∃ x w', get_paper env pmid w = (Raise x, w')
    ∧ (x = AttributeError ∨ x = UnboundLocalError).
Proof.
  unfold get_paper. intros -> Hcode [->| ->]; [eauto|].
  destruct Hcode as [-> | ->]; simpl; eauto.
Qed.


End retrieval_facts.




(** C1 on the code: two 429 answers and then the record, with three
    attempts.  With a readable [e.response.status_code] the first 429
    makes [get_paper] sleep once and fail at [return paper] with an
    exception that [lookup_pubmed] does not catch; with no [response]
    attribute it fails before sleeping.  Either way the run stops after
    one fetch call and no record is returned. *)
Theorem lookup_pubmed_twice_429 :
  (let r := lookup_pubmed (twice_refused (mkHTTPError 429 (Some 429%Z)))
              sample_config default_dates 3 fresh_world in
   fst r = Raise UnboundLocalError
   ∧ trace (snd r)
     = [Print (MsgSearchingJournal "Nature"); Esearch sample_query; Sleep 1;
        Efetch "38000001"; Print MsgRetry429; Sleep 10]
   ∧ count_sleeps 10 (trace (snd r)) = 1
   ∧ count_fetches (trace (snd r)) = 1)
  ∧ (let r := lookup_pubmed (twice_refused (mkHTTPError 429 None))
                sample_config default_dates 3 fresh_world in
     fst r = Raise AttributeError
     ∧ trace (snd r)
       = [Print (MsgSearchingJournal "Nature"); Esearch sample_query; Sleep 1;
          Efetch "38000001"]
     ∧ count_sleeps 10 (trace (snd r)) = 0
     ∧ count_fetches (trace (snd r)) = 1).
Proof. vm_compute. repeat split. Qed.

(** C4 on the code: with the default two attempts and a service that
    always answers, the second fetch of an identifier follows the first
    with no pause in between. *)
Theorem lookup_pubmed_second_fetch_unpaced :
  let r := lookup_pubmed always_found sample_config default_dates 2 fresh_world in
  fst r = Ret [sample_paper; sample_paper]
  ∧ trace (snd r)
    = [Print (MsgSearchingJournal "Nature"); Esearch sample_query; Sleep 1;
       Efetch "38000001"; Efetch "38000001"]
  ∧ count_sleeps 1 (trace (snd r)) = 1
  ∧ count_fetches (trace (snd r)) = 2
  ∧ pause_before_every_fetch (trace (snd r)) = false.
Proof. vm_compute. repeat split. Qed.


(** C2 on the code: nothing is found, so [main] prints the closer that
    says [publications.pptx] has not been updated, and then calls
    [get_pptx] all the same, which builds the front slides and saves the
    file. *)
Theorem main_no_results_saves_file :
  let r := main nothing_found (Ret (Some sample_config)) fresh_world in
  files fresh_world !! "publications.pptx" = None
  ∧ fst r = Ret tt
  ∧ trace (snd r)
    = [Print MsgOpener; Print MsgReadingConfig; Print (MsgOther nl);
       Print (MsgStartDate (DateString "2024/07/03"));
       Print (MsgEndDate (DateString "3000/01/01")); Print MsgLookingUp;
       Print (MsgSearchingJournal "Nature"); Esearch sample_query;
       Print MsgGettingPaperInfo; Print MsgCloser0; Print MsgPreparePptx;
       NewPresentation; Save "publications.pptx"]
  ∧ ∃ slides, files (snd r) !! "publications.pptx" = Some (Pptx slides)
      ∧ length slides = 4.
Proof.
  vm_compute. repeat split. eexists. split; reflexivity.
Qed.

(** C7 on the code: [institution_count] is assigned only under
    [if "Institution" in component], and an article with no [AuthorList]
    gives a record without that key.  When such a record comes first the
    loop fails; when it comes later its line repeats the counts of the
    record before it. *)
Theorem institution_line_without_key :
  (∃ components,
     get_paper_info [mkPaper [article_without_authors "First"]] = Ret components
     ∧ map Institution components = [None]
     ∧ component_slides None components = Raise UnboundLocalError)
  ∧ (∃ components slides,
       get_paper_info [mkPaper [sample_article "First"];
                       mkPaper [article_without_authors "Second"]]
       = Ret components
       ∧ map Institution components = [Some ["MIT"]; None]
       ∧ component_slides None components = Ret slides
       ∧ last_paragraphs slides
         = [["Institutions: MIT 1"]; ["Institutions: MIT 1"]]).
Proof.
  split.
  - eexists. split; [reflexivity|]. split; reflexivity.
  - do 2 eexists. split; [reflexivity|]. split; [reflexivity|].
    split; reflexivity.
Qed.

(** C8 on the code: when the user enters the dates, [ask_user_date]
    turns them into [datetime] objects, and the f-string of
    [lookup_pubmed] prints those as [YYYY-MM-DD 00:00:00]. *)
Theorem query_with_entered_dates :
  let r := main nothing_found (Ret (Some sample_config))
             (world_with_dates "2020/01/01" "2020/02/01") in
  trace (snd r)
  = [Print MsgOpener; Print MsgReadingConfig; Print (MsgOther nl);
     Print (MsgStartDate (DateTime 2020 1 1));
     Print (MsgEndDate (DateTime 2020 2 1)); Print MsgLookingUp;
     Print (MsgSearchingJournal "Nature");
     Esearch (query_with_dates "2020-01-01 00:00:00" "2020-02-01 00:00:00");
     Print MsgGettingPaperInfo; Print MsgCloser0; Print MsgPreparePptx;
     NewPresentation; Save "publications.pptx"]
  ∧ query_with_dates "2020-01-01 00:00:00" "2020-02-01 00:00:00"
    ≠ query_with_dates "2020/01/01" "2020/02/01".
Proof.
  split; [vm_compute; reflexivity | vm_compute; discriminate].
Qed.


(** ** The extraction loop *)

Section extraction_facts.



Lemma reached_nil entry : ¬ reached [] entry.
Proof. intros (before & after & H & _). by destruct before. Qed.

Lemma reached_cons first rest entry :
  reached (first :: rest) entry
  ↔ entry = first ∨ (breaks first = false ∧ reached rest entry).
Proof.
  split.
  - intros ([|b before] & after & Heq & Hall); simplify_eq/=.
    + by left.
    + right. apply Forall_cons in Hall as [? ?].
      split; [done|]. by exists before, after.
  - intros [->|[Hfirst (before & after & -> & Hall)]].
    + by exists [], rest.
    + exists (first :: before), after. split; [done|]. by constructor.
Qed.

(** The inner loop appends exactly the records of the articles it
    reaches. *)
Lemma articles_loop_appends articles components out :
  articles_loop articles components = Ret out →
  ∃ added, out = components ++ added
    ∧ ∀ c, c ∈ added ↔ ∃ entry, reached articles entry ∧ yields entry c.
Proof.
  revert components out.
  induction articles as [|first rest IH]; intros components out; simpl.
  - intros [= <-]. exists []. split; [by rewrite app_nil_r|].
    intros c. split; [by intros ?%elem_of_nil|].
    by intros (entry & ?%reached_nil & _).
  - destruct (article_of first) as [a|] eqn:Hfirst.
    + destruct (extract_article a) as [|c0|e] eqn:Ha; [| |done].
      * intros [= <-]. exists []. split; [by rewrite app_nil_r|].
        intros c. split; [by intros ?%elem_of_nil|].
        intros (entry & [->|[Hb _]]%reached_cons & Hy).
        -- destruct Hy as (a' & Ha' & Hc). congruence.
        -- unfold breaks in Hb. by rewrite Hfirst, Ha in Hb.
      * intros (added & -> & Hadded)%IH. exists (c0 :: added).
        split; [by rewrite <- app_assoc|].
        intros c. rewrite elem_of_cons, Hadded. split.
        -- intros [->|(entry & Hr & Hy)].
           ++ exists first. split; [apply reached_cons; by left|].
              by exists a.
           ++ exists entry. split; [|done]. apply reached_cons. right.
              split; [|done]. unfold breaks. by rewrite Hfirst, Ha.
        -- intros (entry & [->|[_ Hr]]%reached_cons & Hy).
           ++ destruct Hy as (a' & Ha' & Hc). left. congruence.
           ++ right. by exists entry.
    + intros (added & -> & Hadded)%IH. exists added. split; [done|].
      intros c. rewrite Hadded. split.
      * intros (entry & Hr & Hy). exists entry. split; [|done].
        apply reached_cons. right. split; [|done].
        unfold breaks. by rewrite Hfirst.
      * intros (entry & [->|[_ Hr]]%reached_cons & Hy).
        -- destruct Hy as (a' & Ha' & _). congruence.
        -- by exists entry.
Qed.

(** The outer loop starts every raw record afresh. *)
Lemma papers_loop_appends papers components out :
  papers_loop papers components = Ret out →
  ∃ added, out = components ++ added
    ∧ ∀ c, c ∈ added ↔ extracted papers c.
Proof.
  revert components out.
  induction papers as [|paper rest IH]; intros components out; simpl.
  - intros [= <-]. exists []. split; [by rewrite app_nil_r|].
    intros c. split; [by intros ?%elem_of_nil|].
    by intros (paper & entry & ?%elem_of_nil & _).
  - destruct (articles_loop (PubmedArticle paper) components) as [mid|e] eqn:Hin;
      [|done].
    simpl. apply articles_loop_appends in Hin as (here & -> & Hhere).
    intros (more & -> & Hmore)%IH. exists (here ++ more).
    split; [by rewrite app_assoc|].
    intros c. rewrite elem_of_app, Hhere, Hmore. unfold extracted. split.
    + intros [(entry & Hr & Hy)|(paper' & entry & Hin & Hr & Hy)].
      * exists paper, entry. split; [by left | done].
      * exists paper', entry. split; [by right | done].
    + intros (paper' & entry & [->|Hin]%elem_of_cons & Hr & Hy).
      * left. by exists entry.
      * right. by exists paper', entry.
Qed.

End extraction_facts.





(** ** The output file *)

Section output_facts.

Variable env : Environment.
























End output_facts.





(** ** The queries *)

Section query_facts.

Variable env : Environment.

Lemma searches_of_app t1 t2 : searches_of (t1 ++ t2) = searches_of t1 ++ searches_of t2.
Proof. apply omap_app. Qed.

Lemma get_paper_searches pmid w :
  searches_of (trace (snd (get_paper env pmid w))) = searches_of (trace w).
Proof.
  unfold get_paper.
  destruct (efetch_reply env (fetches w)) as [paper|e|msg]; simpl;
    [| destruct (response_status_code e) as [status|];
       [destruct (status =? 500)%Z; [|destruct (status =? 429)%Z]|] |];
    simpl; rewrite !searches_of_app; simpl; by rewrite ?app_nil_r.
Qed.

Lemma attempts_searches n pmid papers w :
  searches_of (trace (snd (attempts env n pmid papers w))) = searches_of (trace w).
Proof.
  revert papers w; induction n as [|n IH]; intros papers w; simpl; [done|].
  pose proof (get_paper_searches pmid w) as Hg.
  destruct (get_paper env pmid w) as [[paper|e] w']; simpl in Hg.
  - by rewrite IH.
  - destruct e; try done. rewrite IH. simpl.
    rewrite !searches_of_app; simpl. by rewrite !app_nil_r.
Qed.

Lemma pmids_loop_searches attempt_number pmids papers w :
  searches_of (trace (snd (pmids_loop env attempt_number pmids papers w)))
  = searches_of (trace w).
Proof.
  revert papers w; induction pmids as [|pmid rest IH]; intros papers w; simpl;
    [done|].
  unfold mbind, emit; simpl.
  pose proof (attempts_searches (Z.to_nat attempt_number) pmid papers
                (log (Sleep 1) w)) as Ha.
  destruct (attempts env (Z.to_nat attempt_number) pmid papers (log (Sleep 1) w))
    as [[papers'|e] w']; simpl in Ha.
  - rewrite IH, Ha. simpl. rewrite searches_of_app; simpl. by rewrite app_nil_r.
  - simpl. rewrite Ha. simpl. rewrite searches_of_app; simpl. by rewrite app_nil_r.
Qed.

Lemma get_pmids_searches q w :
  searches_of (trace (snd (get_pmids env q w))) = searches_of (trace w) ++ [q].
Proof.
  unfold get_pmids. destruct (esearch_reply env (searches w)); simpl;
    by rewrite searches_of_app.
Qed.

Lemma keywords_loop_searches attempt_number start_date end_date journal
  keywords papers w out w' :
  keywords_loop env attempt_number start_date end_date journal keywords papers w
  = (Ret out, w') →
  searches_of (trace w')
  = searches_of (trace w)
    ++ map (λ topic, combined_query topic start_date end_date journal) keywords.
Proof.
  revert papers w; induction keywords as [|keyword rest IH]; intros papers w; simpl.
  - intros [= _ <-]. by rewrite app_nil_r.
  - unfold mbind at 1.
    pose proof (get_pmids_searches
                  (combined_query keyword start_date end_date journal) w) as Hs.
    destruct (get_pmids env _ w) as [[pmids|e] w1]; [|done]. simpl in Hs.
    unfold mbind at 1.
    pose proof (pmids_loop_searches attempt_number pmids papers w1) as Hp.
    destruct (pmids_loop env attempt_number pmids papers w1) as [[papers1|e] w2];
      [|done].
    simpl in Hp. intros Hrest%IH. rewrite Hrest, Hp, Hs.
    by rewrite <- app_assoc.
Qed.

Lemma journals_loop_searches attempt_number start_date end_date journals
  keywords papers w out w' :
  journals_loop env attempt_number start_date end_date journals keywords papers w
  = (Ret out, w') →
  searches_of (trace w')
  = searches_of (trace w) ++ planned_queries start_date end_date journals keywords.
Proof.
  revert papers w; induction journals as [|journal rest IH]; intros papers w; simpl.
  - intros [= _ <-]. by rewrite app_nil_r.
  - unfold mbind at 1, emit. unfold mbind at 1.
    destruct (keywords_loop env attempt_number start_date end_date journal
                keywords papers (log (Print (MsgSearchingJournal journal)) w))
      as [[papers1|e] w1] eqn:Hk; [|done].
    apply keywords_loop_searches in Hk. intros Hrest%IH.
    rewrite Hrest, Hk. simpl. rewrite searches_of_app; simpl.
    unfold planned_queries; simpl. by rewrite app_nil_r, <- app_assoc.
Qed.

(** A lookup that returns has sent one query per journal and topic, in
    journal-major order, each built by the f-string of line 683. *)
Lemma lookup_pubmed_queries config_file_dict start_date end_date attempt_number
  w papers w' :
  lookup_pubmed env config_file_dict (start_date, end_date) attempt_number w
  = (Ret papers, w') →
  searches_of (trace w')
  = searches_of (trace w)
    ++ planned_queries start_date end_date (journals config_file_dict)
         (topics config_file_dict)
  ∧ length (planned_queries start_date end_date (journals config_file_dict)
              (topics config_file_dict))
    = length (journals config_file_dict) * length (topics config_file_dict).
Proof.
  intros H%journals_loop_searches. split; [done|].
  unfold planned_queries. generalize (journals config_file_dict) as js.
  induction js as [|j js IH]; simpl; [done|].
  by rewrite length_app, length_map, IH.
Qed.

(** With dates kept as [YYYY/MM/DD] strings, as in default mode, the
    query is the string of the docstring. *)
Lemma combined_query_default_mode :
  combined_query "crispr" (DateString "2024/07/03") (DateString "3000/01/01") "Nature"
  = sample_query.
Proof. reflexivity. Qed.

End query_facts.

(** ** Writing the report with nothing to report *)

Section empty_report_facts.

Variable env : Environment.

Lemma wrapped_runs_total text max_characters_per_line :
  0 < max_characters_per_line →
  ∃ runs, wrapped_runs text max_characters_per_line = Ret runs.
Proof.
  intros Hpos. unfold wrapped_runs, wrap.
  destruct (wrap_loop_terminates _ Hpos (String.length text) text ltac:(done))
    as [w ->].
  by eexists.
Qed.

Lemma front_slides_total start_end_date config_file_dict components :
  ∃ slides, front_slides env start_end_date config_file_dict components = Ret slides
    ∧ length slides = 4.
Proof.
  unfold front_slides. destruct start_end_date as [start_date end_date].
  destruct (100 <? String.length (join ", " (topics config_file_dict))).
  - destruct (wrapped_runs_total (join ", " (topics config_file_dict)) 100
                ltac:(lia)) as [runs ->].
    simpl. by eexists.
  - simpl. by eexists.
Qed.

(** With no component and no [publications.pptx] on disk, [get_pptx]
    builds the four front slides and saves them. *)
Lemma get_pptx_empty_saves start_end_date config_file_dict w :
  files w !! "publications.pptx" = None →
  ∃ slides,
    get_pptx env start_end_date config_file_dict [] "publications.pptx" w
    = (Ret tt,
       mkWorld (stdin w) (searches w) (fetches w)
         (trace w ++ [NewPresentation; Save "publications.pptx"])
         (<["publications.pptx" := Pptx slides]> (files w)))
    ∧ length slides = 4.
Proof.
  intros Hnone.
  destruct (front_slides_total start_end_date config_file_dict []) as (front & Hf & Hlen).
  exists front. split; [|done].
  unfold get_pptx, mbind, exists_file, emit, lift, save, build_presentation.
  rewrite bool_decide_eq_false_2 by (rewrite Hnone; by intros [? ?]).
  rewrite Hf. simpl. rewrite app_nil_r, <- app_assoc. done.
Qed.

End empty_report_facts.

(** ** Markup stripping *)

Section strip_tags_facts.

Lemma prefix_cons a s1 b s2 :
  String.prefix (String a s1) (String b s2)
  = if Ascii.ascii_dec a b then String.prefix s1 s2 else false.
Proof. done. Qed.

Lemma remove_occurrences_plain old s :
  has_char "<" s = false →
  remove_occurrences (String "<" old) 0 s = s.
Proof.
  induction s as [|c r IH]; [done|].
  cbn [has_char remove_occurrences]. intros [Hc Hr]%orb_false_iff.
  rewrite prefix_cons.
  destruct (Ascii.ascii_dec "<" c) as [<-|_];
    [by rewrite Ascii.eqb_refl in Hc|].
  by rewrite IH.
Qed.

Lemma length_remove_occurrences old skip s :
  String.length (remove_occurrences old skip s) ≤ String.length s.
Proof.
  revert skip; induction s as [|c r IH]; intros skip; [done|].
  cbn [remove_occurrences]. destruct skip as [|k].
  - destruct (String.prefix old (String c r)).
    + specialize (IH (String.length old - 1)). simpl. lia.
    + specialize (IH 0). simpl. lia.
  - specialize (IH k). simpl. lia.
Qed.

Lemma length_replace_with_empty old s :
  String.length (replace_with_empty old s) ≤ String.length s.
Proof.
  destruct old; simpl; [done|]. apply length_remove_occurrences.
Qed.

End strip_tags_facts.

(** X1: a title or abstract that holds no [<] comes out of the replace
    chain unchanged. *)
Theorem strip_tags_plain_text (text : string) :
  has_char "<" text = false → strip_tags text = text.
Proof.
  intros H. unfold strip_tags, replace_with_empty. cbv beta iota.
  rewrite (remove_occurrences_plain "sub>" text H).
  rewrite (remove_occurrences_plain "/sub>" text H).
  rewrite (remove_occurrences_plain "i>" text H).
  rewrite (remove_occurrences_plain "/i>" text H).
  rewrite (remove_occurrences_plain "sup>" text H).
  apply (remove_occurrences_plain "/sup>" text H).
Qed.

Lemma strip_tags_plain_text_witness :
  has_char "<" "CRISPR screens in 2 > 1 cell lines" = false
  ∧ strip_tags "CRISPR screens in 2 > 1 cell lines"
    = "CRISPR screens in 2 > 1 cell lines".
Proof.
  split; [reflexivity|].
  apply (strip_tags_plain_text "CRISPR screens in 2 > 1 cell lines").
  reflexivity.
Defined.

(** X2: the replace chain only removes characters: the result is never
    longer than the text, so a text within a line budget stays within
    it. *)
Theorem strip_tags_never_longer (text : string) :
  String.length (strip_tags text) ≤ String.length text.
Proof.
  unfold strip_tags.
  repeat (etrans; [apply length_replace_with_empty|]). done.
Qed.

(** ** Counting affiliations and journals *)

Section counting_facts.

Implicit Types (counts : list (string * nat)) (keys : list string).

Lemma count_of_increment key k counts :
  count_of k (increment key counts)
  = (if decide (key = k) then 1 else 0) + count_of k counts.
Proof.
  induction counts as [|[k' n] rest IH]; simpl.
  - by destruct (decide (key = k)).
  - destruct (decide (k' = key)) as [->|Hne]; simpl.
    + destruct (decide (key = k)); simpl; [done|]. done.
    + destruct (decide (k' = k)) as [->|]; simpl; [|done].
      by rewrite decide_False by done.
Qed.

Lemma keys_increment key counts :
  map fst (increment key counts)
  = map fst counts ++ (if decide (key ∈ map fst counts) then [] else [key]).
Proof.
  induction counts as [|[k' n] rest IH]; [done|]. cbn [increment map fst].
  destruct (decide (k' = key)) as [->|Hne]; cbn [map fst].
    + rewrite decide_True; [by rewrite app_nil_r|]. by left.
    + rewrite IH. simpl. f_equal. f_equal. apply decide_ext.
      rewrite elem_of_cons. split; [tauto|]. intros [?|?]; [congruence|done].
Qed.

Lemma count_all_snoc keys key :
  count_all (keys ++ [key]) = increment key (count_all keys).
Proof. unfold count_all. by rewrite fold_left_app. Qed.

Lemma count_of_count_all keys k : count_of k (count_all keys) = occurrences k keys.
Proof.
  induction keys as [|key keys IH] using rev_ind; [done|].
  rewrite count_all_snoc, count_of_increment, IH.
  clear IH. induction keys as [|k' keys IH]; simpl; [lia|]. rewrite <- IH. lia.
Qed.

Lemma keys_count_all keys x : x ∈ map fst (count_all keys) ↔ x ∈ keys.
Proof.
  induction keys as [|key keys IH] using rev_ind; [done|].
  rewrite count_all_snoc, keys_increment, !elem_of_app, IH.
  destruct (decide (key ∈ map fst (count_all keys))) as [Hin|Hnin].
  - rewrite elem_of_nil, list_elem_of_singleton. split; [tauto|].
    intros [?| ->]; [tauto|]. left. by apply IH.
  - done.
Qed.

Lemma NoDup_keys_count_all keys : NoDup (map fst (count_all keys)).
Proof.
  induction keys as [|key keys IH] using rev_ind; [constructor|].
  rewrite count_all_snoc, keys_increment.
  destruct (decide (key ∈ map fst (count_all keys))) as [Hin|Hnin].
  - by rewrite app_nil_r.
  - apply NoDup_app. split; [done|]. split; [|apply NoDup_singleton].
    intros x Hx ->%list_elem_of_singleton. done.
Qed.

Lemma count_of_elem_of counts k n :
  NoDup (map fst counts) → (k, n) ∈ counts → count_of k counts = n.
Proof.
  induction counts as [|[k' n'] rest IH]; simpl.
  - by intros _ ?%elem_of_nil.
  - intros [Hk' Hrest]%NoDup_cons [[= -> ->]|Hin]%elem_of_cons.
    + by rewrite decide_True.
    + rewrite decide_False; [by apply IH|]. intros ->. apply Hk'.
      apply list_elem_of_fmap. by exists (k, n).
Qed.

Lemma sum_increment key counts :
  sum_list (map snd (increment key counts)) = S (sum_list (map snd counts)).
Proof.
  induction counts as [|[k' n] rest IH]; simpl; [done|].
  destruct (decide (k' = key)); simpl; [done|]. rewrite IH. lia.
Qed.

Lemma sum_count_all keys : sum_list (map snd (count_all keys)) = length keys.
Proof.
  induction keys as [|key keys IH] using rev_ind; [done|].
  rewrite count_all_snoc, sum_increment, IH, length_app. simpl. lia.
Qed.

(** Inserting keeps what is there and goes in front of the entries of
    the same count. *)
Lemma insert_by_count_Permutation x counts : insert_by_count x counts ≡ₚ x :: counts.
Proof.
  induction counts as [|y rest IH]; simpl; [done|].
  destruct (snd x <? snd y); [|done].
  rewrite IH. apply Permutation_swap.
Qed.

Lemma with_count_insert n x counts :
  with_count n (insert_by_count x counts) = with_count n (x :: counts).
Proof.
  induction counts as [|y rest IH]; simpl; [done|].
  destruct (Nat.ltb_spec (snd x) (snd y)) as [Hlt|Hge]; simpl; [|done].
  rewrite IH. simpl.
  destruct (Nat.eqb_spec (snd x) n) as [Hx|Hx],
           (Nat.eqb_spec (snd y) n) as [Hy|Hy]; try done. lia.
Qed.

Lemma insert_by_count_sorted x counts :
  StronglySorted (λ a b, snd b ≤ snd a) counts →
  StronglySorted (λ a b, snd b ≤ snd a) (insert_by_count x counts).
Proof.
  induction counts as [|y rest IH]; simpl.
  - intros _. by repeat constructor.
  - intros [Hrest Hy]%StronglySorted_inv.
    destruct (Nat.ltb_spec (snd x) (snd y)) as [Hlt|Hge].
    + constructor; [by apply IH|].
      rewrite insert_by_count_Permutation. constructor; [lia | done].
    + constructor; [by constructor|].
      constructor; [done|]. eapply Forall_impl; [done|]. simpl. intros; lia.
Qed.

Lemma sorted_by_count_Permutation counts : sorted_by_count counts ≡ₚ counts.
Proof.
  induction counts as [|x rest IH]; simpl; [done|].
  by rewrite insert_by_count_Permutation, IH.
Qed.

Lemma sorted_by_count_sorted counts :
  StronglySorted (λ a b, snd b ≤ snd a) (sorted_by_count counts).
Proof.
  induction counts as [|x rest IH]; simpl; [constructor|].
  by apply insert_by_count_sorted.
Qed.

Lemma sorted_by_count_stable n counts :
  with_count n (sorted_by_count counts) = with_count n counts.
Proof.
  induction counts as [|x rest IH]; simpl; [done|].
  rewrite with_count_insert. simpl. by rewrite IH.
Qed.

End counting_facts.

(** X3: the loop of lines 527-532 counts: the dictionary has one entry
    per distinct affiliation, in the order in which they first occur, and
    each entry holds the number of times the affiliation occurs in the
    list; the counts add up to the length of the list. *)
Theorem count_all_counts (institutions : list string) :
  NoDup (map fst (count_all institutions))
  ∧ (∀ k, k ∈ map fst (count_all institutions) ↔ k ∈ institutions)
  ∧ (∀ k n, (k, n) ∈ count_all institutions → n = occurrences k institutions ∧ 0 < n)
  ∧ (∀ before k,
       map fst (count_all (before ++ [k]))
       = map fst (count_all before) ++ (if decide (k ∈ before) then [] else [k]))
  ∧ sum_list (map snd (count_all institutions)) = length institutions.
Proof.
  split; [apply NoDup_keys_count_all|].
  split; [apply keys_count_all|].
  split; [|split; [|apply sum_count_all]].
  - intros k n Hin.
    assert (n = occurrences k institutions) as ->.
    { rewrite <- count_of_count_all. symmetry.
      by apply count_of_elem_of; [apply NoDup_keys_count_all|]. }
    split; [done|].
    assert (k ∈ institutions) as Hk.
    { apply keys_count_all. apply list_elem_of_fmap. by eexists (k, _). }
    clear Hin. induction institutions as [|k' rest IH]; simpl.
    + by apply elem_of_nil in Hk.
    + apply elem_of_cons in Hk as [->|Hk].
      * rewrite decide_True by done. lia.
      * specialize (IH Hk). lia.
  - intros before k. rewrite count_all_snoc, keys_increment.
    f_equal. apply decide_ext. apply keys_count_all.
Qed.

(** X4: [sorted(institution_count, key=institution_count.get,
    reverse=True)] keeps every entry, puts the counts in descending
    order, and leaves entries of equal count in the order of the
    dictionary, so that the two institutions shown are two of highest
    count, ties going to the one met first. *)
Theorem sorted_by_count_stable_descending (institution_count : list (string * nat)) :
  sorted_by_count institution_count ≡ₚ institution_count
  ∧ StronglySorted (λ a b, snd b ≤ snd a) (sorted_by_count institution_count)
  ∧ (∀ n, with_count n (sorted_by_count institution_count)
          = with_count n institution_count)
  ∧ (∀ shown hidden,
       shown ∈ take 2 (sorted_by_count institution_count) →
       hidden ∈ drop 2 (sorted_by_count institution_count) →
       snd hidden ≤ snd shown).
Proof.
  split; [apply sorted_by_count_Permutation|].
  split; [apply sorted_by_count_sorted|].
  split; [intros n; apply sorted_by_count_stable|].
  intros shown hidden Hs Hh.
  pose proof (sorted_by_count_sorted institution_count) as Hsorted.
  rewrite <- (take_drop 2 (sorted_by_count institution_count)) in Hsorted.
  by eapply (StronglySorted_app_1_elem_of _ _ _ shown hidden) in Hsorted.
Qed.

(** ** The page of one publication *)

Section component_slide_facts.

Lemma wrapped_runs_returns text max_characters_per_line :
  0 < max_characters_per_line →
  ∃ runs, wrapped_runs text max_characters_per_line = Ret runs.
Proof.
  intros Hpos. unfold wrapped_runs, wrap.
  destruct (wrap_loop_terminates _ Hpos (String.length text) text ltac:(done))
    as [w ->].
  by eexists.
Qed.

Lemma last_app_cons {A} (l : list A) x l' d :
  List.last (l ++ x :: l') d = List.last (x :: l') d.
Proof.
  induction l as [|y l IH]; [done|].
  change ((y :: l) ++ x :: l') with (y :: (l ++ x :: l')).
  cbn [List.last]. destruct (l ++ x :: l') eqn:E; [by destruct l | done].
Qed.

Lemma date_line_readable c :
  match date_line c with
  | Ret _ => date_readable c = true
  | Raise e => e = IndexError ∧ date_readable c = false
  end.
Proof.
  unfold date_line, date_readable.
  destruct (Date c) as [[[|d ds]|[|ch s]]|]; simpl; try done.
  by destruct (Year d), (Month d), (Day d).
Qed.

Lemma doi_line_readable c :
  match doi_line c with
  | Ret _ => link_readable c = true
  | Raise e => link_readable c = false
               ∧ e = match Link c with None => KeyError | _ => IndexError end
  end.
Proof.
  unfold doi_line, link_readable.
  by destruct (Link c) as [[[|l ls]|[|ch s]]|].
Qed.

End component_slide_facts.

(** X5: the page of a record that has an ["Institution"] key does not
    depend on the pages built before it: the count is taken afresh from
    the record's own affiliations, handed on to the next page, and a line
    of at most 170 characters is the last paragraph as it is. *)
Theorem component_slide_own_institutions (c : Component) (institutions : list string)
  (before before' : option (list (string * nat))) :
  Institution c = Some institutions →
  component_slide before c = component_slide before' c
  ∧ ∀ slide after,
      component_slide before c = Ret (slide, after) →
      after = Some (count_all institutions)
      ∧ (String.length (institution_text (count_all institutions)) ≤ 170 →
         List.last (paragraphs slide) []
         = [institution_text (count_all institutions)]).
Proof.
  intros Hinst. unfold component_slide. rewrite Hinst. split; [done|].
  intros slide after.
  destruct (if 75 <? String.length (strip_tags (Title c)) then _ else _)
    as [title_paragraphs|]; cbn [bind]; [|done].
  destruct (match Abstract c with Some _ => _ | None => _ end)
    as [abstract_paragraph|]; cbn [bind]; [|done].
  destruct (date_line c) as [date_text|]; cbn [bind]; [|done].
  destruct (doi_line c) as [doi_text|]; cbn [bind]; [|done].
  destruct (match Authors c with Some _ => _ | None => _ end)
    as [authors_paragraph|]; cbn [bind]; [|done].
  destruct (Nat.ltb_spec 170
              (String.length (institution_text (count_all institutions))))
    as [Hlong|Hshort].
  - destruct (wrapped_runs _ 170) as [runs|]; cbn [bind]; [|done].
    intros [= <- <-]. split; [done|]. lia.
  - cbn [bind]. intros [= <- <-]. split; [done|]. intros _.
    cbn [paragraphs]. by rewrite last_app_cons.
Qed.

Lemma component_slide_own_institutions_witness :
  Institution (sample_component_of_article "A title") = Some ["MIT"]
  ∧ component_slide None (sample_component_of_article "A title")
    = component_slide (Some [("ETH", 3)]) (sample_component_of_article "A title")
  ∧ ∀ slide after,
      component_slide None (sample_component_of_article "A title")
      = Ret (slide, after) →
      after = Some (count_all ["MIT"])
      ∧ (String.length (institution_text (count_all ["MIT"])) ≤ 170 →
         List.last (paragraphs slide) [] = [institution_text (count_all ["MIT"])]).
Proof.
  split; [reflexivity|].
  apply (component_slide_own_institutions (sample_component_of_article "A title")
           ["MIT"] None (Some [("ETH", 3)])).
  reflexivity.
Defined.

(** X6: when the body of the page loop fails and when it does not.  An
    empty ["Date"] list (or string) raises [IndexError] at
    [component["Date"][0]]; otherwise a missing ["Link"] raises
    [KeyError] and an empty one [IndexError]; otherwise a record without
    ["Institution"] met before any record with one raises
    [UnboundLocalError]; in every other case the page is built.  The
    wrapping loops never fail. *)
Theorem component_slide_failures (before : option (list (string * nat)))
  (c : Component) :
  if negb (date_readable c) then component_slide before c = Raise IndexError
  else if negb (link_readable c) then
    component_slide before c
    = Raise (match Link c with None => KeyError | _ => IndexError end)
  else
    match Institution c, before with
    | None, None => component_slide before c = Raise UnboundLocalError
    | _, _ => ∃ page, component_slide before c = Ret page
    end.
Proof.
  unfold component_slide.
  assert (∃ title_paragraphs,
            (if 75 <? String.length (strip_tags (Title c))
             then let! runs := wrapped_runs (strip_tags (Title c)) 75 in
                  Ret ["" :: runs]
             else Ret [[""]; [strip_tags (Title c)]]) = Ret title_paragraphs)
    as [title_paragraphs ->].
  { destruct (75 <? _); [|by eexists].
    destruct (wrapped_runs_returns (strip_tags (Title c)) 75 ltac:(lia))
      as [runs ->].
    by eexists. }
  assert (∃ abstract_paragraph,
            match Abstract c with
            | Some abstract =>
                let! runs := wrapped_runs (strip_tags abstract) 115 in
                Ret ("" :: runs)
            | None => Ret ["Abstract: Not available"]
            end = Ret abstract_paragraph) as [abstract_paragraph ->].
  { destruct (Abstract c) as [abstract|]; [|by eexists].
    destruct (wrapped_runs_returns (strip_tags abstract) 115 ltac:(lia))
      as [runs ->].
    by eexists. }
  cbn [bind].
  pose proof (date_line_readable c) as Hdate.
  destruct (date_line c) as [date_text|e]; [rewrite Hdate|destruct Hdate as [-> ->]];
    cbn [negb bind]; [|done].
  pose proof (doi_line_readable c) as Hdoi.
  destruct (doi_line c) as [doi_text|e]; [rewrite Hdoi|destruct Hdoi as [-> ->]];
    cbn [negb bind]; [|done].
  assert (∃ authors_paragraph,
            match Authors c with
            | Some authors =>
                let! runs :=
                  wrapped_runs ("Authors: " +:+ join ", " (items_of authors)) 170 in
                Ret ("" :: runs)
            | None => Ret ["Authors: Not available"]
            end = Ret authors_paragraph) as [authors_paragraph ->].
  { destruct (Authors c) as [authors|]; [|by eexists].
    destruct (wrapped_runs_returns
                ("Authors: " +:+ join ", " (items_of authors)) 170 ltac:(lia))
      as [runs ->].
    by eexists. }
  cbn [bind].
  assert (∀ counts, ∃ page,
            (let! institution_paragraph :=
               if 170 <? String.length (institution_text counts)
               then let! runs := wrapped_runs (institution_text counts) 170 in
                    Ret ("" :: runs)
               else Ret [institution_text counts] in
             Ret ({| slide_title := None;
                     paragraphs :=
                       title_paragraphs ++
                       [[]; abstract_paragraph; [];
                        [(match Journal c with
                          | Some j => "Published in: " +:+ j +:+ nl
                          | None => "Journal: Not available" +:+ nl
                          end) +:+ date_text]; [doi_text];
                        authors_paragraph; []; institution_paragraph];
                     table := [] |}, Some counts)) = Ret page) as Hpage.
  { intros counts. destruct (170 <? _); [|by eexists].
    destruct (wrapped_runs_returns (institution_text counts) 170 ltac:(lia))
      as [runs ->].
    by eexists. }
  destruct (Institution c) as [institutions|], before as [counts|];
    [apply Hpage..|done].
Qed.

(** ** The table of journals *)

Section journal_data_facts.


End journal_data_facts.


(** ** Writing the file *)

(** X8: when no file called [pptx_name] exists, [get_pptx] starts a
    presentation; if the build succeeds it is saved as
    [publications.pptx] whatever [pptx_name] is, replacing a file of that
    name if there is one, and no file called [pptx_name] appears unless
    that is the name; if the build raises, no file is written or
    changed. *)
Theorem get_pptx_saves_under_fixed_name (env : Environment)
  (start_end_date : date_value * date_value) (config_file_dict : Config)
  (components : list Component) (pptx_name : string) (w : World) :
  files w !! pptx_name = None →
  match build_presentation env start_end_date config_file_dict components with
  | Ret slides =>
      get_pptx env start_end_date config_file_dict components pptx_name w
      = (Ret tt,
         mkWorld (stdin w) (searches w) (fetches w)
           (trace w ++ [NewPresentation; Save "publications.pptx"])
           (<["publications.pptx" := Pptx slides]> (files w)))
      ∧ (pptx_name ≠ "publications.pptx" →
         (<["publications.pptx" := Pptx slides]> (files w)) !! pptx_name = None)
  | Raise e =>
      get_pptx env start_end_date config_file_dict components pptx_name w
      = (Raise e, log NewPresentation w)
      ∧ files (log NewPresentation w) = files w
  end.
Proof.
  intros Hnone. unfold get_pptx, mbind, exists_file, emit, lift, save.
  rewrite bool_decide_eq_false_2 by (rewrite Hnone; by intros [? ?]).
  destruct (build_presentation env start_end_date config_file_dict components)
    as [slides|e]; simpl.
  - split; [by rewrite <- app_assoc|].
    intros Hname. by rewrite lookup_insert_ne.
  - done.
Qed.

Lemma get_pptx_saves_under_fixed_name_witness :
  files world_with_output !! "journal_club.pptx" = None
  ∧ match build_presentation nothing_found default_dates sample_config [] with
    | Ret slides =>
        get_pptx nothing_found default_dates sample_config [] "journal_club.pptx"
          world_with_output
        = (Ret tt,
           mkWorld (stdin world_with_output) (searches world_with_output)
             (fetches world_with_output)
             (trace world_with_output ++ [NewPresentation; Save "publications.pptx"])
             (<["publications.pptx" := Pptx slides]> (files world_with_output)))
        ∧ ("journal_club.pptx" ≠ "publications.pptx" →
           (<["publications.pptx" := Pptx slides]> (files world_with_output))
             !! "journal_club.pptx" = None)
    | Raise e =>
        get_pptx nothing_found default_dates sample_config [] "journal_club.pptx"
          world_with_output
        = (Raise e, log NewPresentation world_with_output)
        ∧ files (log NewPresentation world_with_output) = files world_with_output
    end.
Proof.
  split; [reflexivity|].
  apply (get_pptx_saves_under_fixed_name nothing_found default_dates
           sample_config [] "journal_club.pptx" world_with_output).
  reflexivity.
Defined.

(** ** What extraction hands to the report *)

Section component_facts.

Lemma extract_article_keys a c :
  extract_article a = Append c →
  Abstract c ≠ None
  ∧ Date c = Some (match ArticleDate a with
                   | Some d => Val d
                   | None => Str "No date available"
                   end)
  ∧ Link c = Some (match ELocationID a with
                   | Some l => Val l
                   | None => Str "No link available"
                   end)
  ∧ Authors c = Some (authors_of a)
  ∧ (Institution c = None ↔ AuthorList a = None)
  ∧ (Journal c = None ↔ ArticleJournal a = None ∨ ArticleJournal a = Some None).
Proof.
  unfold extract_article, abstract_text, institution_of.
  destruct (ArticleTitle a) as [title|]; [|done].
  destruct (ArticleAbstract a) as [[[|t ts]|]|]; try done.
  destruct (AuthorList a) as [authors|].
  - destruct (affiliations_of_authors authors) as [l|]; simpl; [|done].
    intros [= <-]; simpl. repeat split; try done.
    + destruct (ArticleJournal a) as [[j|]|]; naive_solver.
    + destruct (ArticleJournal a) as [[j|]|]; naive_solver.
  - simpl. intros [= <-]; simpl. repeat split; try done.
    + destruct (ArticleJournal a) as [[j|]|]; naive_solver.
    + destruct (ArticleJournal a) as [[j|]|]; naive_solver.
Qed.

Lemma affiliations_of_entries_raises entries e :
  affiliations_of_entries entries = Raise e →
  e = KeyError ∧ ∃ entry, entry ∈ entries ∧ Affiliation entry = None.
Proof.
  induction entries as [|entry rest IH]; simpl; [done|].
  destruct (Affiliation entry) as [s|] eqn:Hentry.
  - destruct (affiliations_of_entries rest) as [ss|e']; simpl; [done|].
    intros [= <-]. destruct (IH eq_refl) as (-> & entry' & Hin & Hnone).
    split; [done|]. exists entry'. split; [by right | done].
  - intros [= <-]. split; [done|]. exists entry. split; [by left | done].
Qed.

Lemma affiliations_of_authors_raises authors e :
  affiliations_of_authors authors = Raise e →
  e = KeyError
  ∧ ∃ author entries entry,
      author ∈ authors ∧ AffiliationInfo author = Some entries
      ∧ entry ∈ entries ∧ Affiliation entry = None.
Proof.
  induction authors as [|author rest IH]; simpl; [done|].
  destruct (AffiliationInfo author) as [entries|] eqn:Hinfo.
  - destruct (affiliations_of_entries entries) as [here|e'] eqn:Hhere; simpl.
    + destruct (affiliations_of_authors rest) as [more|e'']; simpl; [done|].
      intros [= <-].
      destruct (IH eq_refl) as (-> & author' & entries' & entry & ? & ? & ? & ?).
      split; [done|]. exists author', entries', entry.
      split; [by right | done].
    + intros [= <-].
      apply affiliations_of_entries_raises in Hhere as (-> & entry & ? & ?).
      split; [done|]. exists author, entries, entry. split; [by left | done].
  - intros Hrest.
    destruct (IH Hrest) as (-> & author' & entries' & entry & ? & ? & ? & ?).
    split; [done|]. exists author', entries', entry. split; [by right | done].
Qed.

(** The two ways in which the body of the loop lets an exception out. *)
Lemma extract_article_propagates a e :
  extract_article a = Propagate e →
  (e = IndexError ∧ ArticleAbstract a = Some (Some []))
  ∨ (e = KeyError ∧ affiliation_missing a).
Proof.
  unfold extract_article, abstract_text, institution_of.
  destruct (ArticleTitle a) as [title|]; [|done].
  destruct (ArticleAbstract a) as [[[|t ts]|]|]; try done.
  - intros [= <-]. by left.
  - destruct (AuthorList a) as [authors|] eqn:Hauthors; [|done].
    destruct (affiliations_of_authors authors) as [l|e'] eqn:Haff; simpl; [done|].
    intros [= <-].
    apply affiliations_of_authors_raises in Haff
      as (-> & author & entries & entry & ? & ? & ? & ?).
    right. split; [done|]. by exists authors, author, entries, entry.
Qed.

Lemma articles_loop_raises articles components e :
  articles_loop articles components = Raise e →
  ∃ entry a, reached articles entry ∧ article_of entry = Some a
    ∧ extract_article a = Propagate e.
Proof.
  revert components; induction articles as [|first rest IH]; intros components;
    simpl; [done|].
  destruct (article_of first) as [a|] eqn:Hfirst.
  - destruct (extract_article a) as [|c0|e'] eqn:Ha; [done| |].
    + intros (entry & a' & Hr & ? & ?)%IH. exists entry, a'.
      split; [|done]. apply reached_cons. right. split; [|done].
      unfold breaks. by rewrite Hfirst, Ha.
    + intros [= <-]. exists first, a. split; [|done].
      apply reached_cons. by left.
  - intros (entry & a' & Hr & ? & ?)%IH. exists entry, a'.
    split; [|done]. apply reached_cons. right. split; [|done].
    unfold breaks. by rewrite Hfirst.
Qed.

Lemma papers_loop_raises papers components e :
  papers_loop papers components = Raise e →
  ∃ paper entry a, paper ∈ papers ∧ reached (PubmedArticle paper) entry
    ∧ article_of entry = Some a ∧ extract_article a = Propagate e.
Proof.
  revert components; induction papers as [|paper rest IH]; intros components;
    simpl; [done|].
  destruct (articles_loop (PubmedArticle paper) components) as [mid|e'] eqn:Hin;
    simpl.
  - intros (paper' & entry & a & ? & ? & ? & ?)%IH.
    exists paper', entry, a. split; [by right | done].
  - intros [= <-]. apply articles_loop_raises in Hin as (entry & a & ? & ? & ?).
    exists paper, entry, a. split; [by left | done].
Qed.

(** The loops only add to [components]. *)
Lemma articles_loop_from articles components :
  articles_loop articles components
  = let! added := articles_loop articles [] in Ret (components ++ added).
Proof.
  revert components; induction articles as [|first rest IH]; intros components;
    simpl; [by rewrite app_nil_r|].
  destruct (article_of first) as [a|]; [|apply IH].
  destruct (extract_article a) as [|c0|e]; simpl; [by rewrite app_nil_r| |done].
  rewrite (IH (components ++ [c0])), (IH [c0]).
  destruct (articles_loop rest []) as [added|]; simpl; [|done].
  by rewrite <- app_assoc.
Qed.

Lemma papers_loop_from papers components :
  papers_loop papers components
  = let! added := papers_loop papers [] in Ret (components ++ added).
Proof.
  revert components; induction papers as [|paper rest IH]; intros components;
    simpl; [by rewrite app_nil_r|].
  rewrite (articles_loop_from _ components).
  destruct (articles_loop (PubmedArticle paper) []) as [here|]; simpl; [|done].
  rewrite (IH (components ++ here)), (IH here).
  destruct (papers_loop rest []) as [more|]; simpl; [|done].
  by rewrite <- app_assoc.
Qed.

Lemma papers_loop_app papers1 papers2 :
  papers_loop (papers1 ++ papers2) []
  = let! first := papers_loop papers1 [] in
    let! second := papers_loop papers2 [] in
    Ret (first ++ second).
Proof.
  induction papers1 as [|paper rest IH]; simpl.
  - by destruct (papers_loop papers2 []).
  - destruct (articles_loop (PubmedArticle paper) []) as [here|]; simpl; [|done].
    rewrite (papers_loop_from (rest ++ papers2) here), (papers_loop_from rest here).
    rewrite IH.
    destruct (papers_loop rest []) as [more|]; simpl; [|done].
    destruct (papers_loop papers2 []) as [second|]; simpl; [|done].
    by rewrite app_assoc.
Qed.

Lemma remove_duplicates_from_app seen components1 components2 :
  remove_duplicates_from seen (components1 ++ components2)
  = remove_duplicates_from seen components1
    ++ remove_duplicates_from (list_to_set (map Title components1) ∪ seen)
         components2.
Proof.
  revert seen; induction components1 as [|x rest IH]; intros seen.
  - change (map Title []) with (@nil string).
    by rewrite list_to_set_nil, (left_id_L ∅ (∪)).
  - change (map Title (x :: rest)) with (Title x :: map Title rest).
    rewrite list_to_set_cons.
    change ((x :: rest) ++ components2) with (x :: (rest ++ components2)).
    cbn [remove_duplicates_from].
    destruct (decide (Title x ∈ seen)) as [Hx|Hx]; rewrite IH.
    + f_equal. f_equal. set_solver.
    + change ((x :: ?l) ++ ?k) with (x :: (l ++ k)). f_equal. f_equal. f_equal.
      set_solver.
Qed.

Lemma remove_duplicates_from_seen seen components :
  (∀ c, c ∈ components → Title c ∈ seen) →
  remove_duplicates_from seen components = [].
Proof.
  induction components as [|x rest IH]; simpl; [done|].
  intros Hall. rewrite decide_True by (apply Hall; by left).
  apply IH. intros c Hc. apply Hall. by right.
Qed.

End component_facts.

Section repeated_papers_facts.

Lemma remove_duplicates_from_skip seen repeated components :
  (∀ c, c ∈ repeated → Title c ∈ seen) →
  remove_duplicates_from seen (repeated ++ components)
  = remove_duplicates_from seen components.
Proof.
  induction repeated as [|x rest IH]; simpl; [done|].
  intros Hall. rewrite decide_True by (apply Hall; by left).
  apply IH. intros c Hc. apply Hall. by right.
Qed.

Lemma remove_duplicates_from_repeated seen components n after :
  remove_duplicates_from seen
    (components ++ concat (replicate n components) ++ after)
  = remove_duplicates_from seen (components ++ after).
Proof.
  rewrite (remove_duplicates_from_app seen components),
    (remove_duplicates_from_app seen components after). f_equal.
  apply remove_duplicates_from_skip.
  intros c Hc. apply elem_of_union. left. apply elem_of_list_to_set.
  apply list_elem_of_fmap. exists c. split; [done|].
  clear -Hc. induction n as [|n IH]; simpl in Hc.
  - by apply elem_of_nil in Hc.
  - apply elem_of_app in Hc as [?|?]; [done | by apply IH].
Qed.

Lemma papers_loop_replicate n paper :
  papers_loop (replicate (S n) paper) []
  = let! components := papers_loop [paper] [] in
    Ret (components ++ concat (replicate n components)).
Proof.
  induction n as [|n IH].
  - simpl. destruct (articles_loop (PubmedArticle paper) []); simpl; [|done].
    by rewrite app_nil_r.
  - change (replicate (S (S n)) paper) with ([paper] ++ replicate (S n) paper).
    rewrite papers_loop_app, IH.
    destruct (papers_loop [paper] []) as [components|]; simpl; [|done].
    done.
Qed.

End repeated_papers_facts.

(** X9: every record that [get_paper_info] returns carries the keys
    ["Abstract"], ["Date"], ["Link"] and ["Authors"], so the three
    "Not available" branches of [get_pptx] and the [KeyError] on
    ["Link"] are out of reach for them; and no two records share a
    title. *)
Theorem get_paper_info_components (papers : list Paper) (components : list Component) :
  get_paper_info papers = Ret components →
  NoDup (map Title components)
  ∧ ∀ c, c ∈ components →
      is_Some (Abstract c) ∧ is_Some (Date c) ∧ is_Some (Link c)
      ∧ is_Some (Authors c).
Proof.
  unfold get_paper_info.
  destruct (papers_loop papers []) as [all|e] eqn:Hloop; [|done].
  simpl. intros [= <-]. split; [apply remove_duplicates_from_NoDup|].
  apply papers_loop_appends in Hloop as (added & -> & Hadded). simpl.
  intros c Hc.
  assert (extracted papers c) as (paper & entry & _ & _ & a & _ & Ha).
  { apply Hadded.
    eapply elem_of_sublist; [done | apply remove_duplicates_from_sublist]. }
  apply extract_article_keys in Ha as (Habs & -> & -> & -> & _).
  repeat split; try by eexists. by destruct (Abstract c); [eexists|].
Qed.

Lemma get_paper_info_components_witness :
  get_paper_info sample_papers
  = Ret [sample_component_of_article "A"; sample_component_of_article "C"]
  ∧ NoDup (map Title [sample_component_of_article "A";
                      sample_component_of_article "C"])
  ∧ ∀ c, c ∈ [sample_component_of_article "A"; sample_component_of_article "C"] →
      is_Some (Abstract c) ∧ is_Some (Date c) ∧ is_Some (Link c)
      ∧ is_Some (Authors c).
Proof.
  split; [reflexivity|].
  apply (get_paper_info_components sample_papers
           [sample_component_of_article "A"; sample_component_of_article "C"]).
  reflexivity.
Defined.

(** X10: how [get_pptx] reads the placeholders that [get_paper_info]
    writes.  For the record of an article with no [ELocationID] the DOI
    line is the first character of "No link available"; with no
    [ArticleDate] no date is added to the journal line at all; with no
    [AuthorList] the authors are the characters of "No authors
    available" and the record has no ["Institution"] key. *)
Theorem placeholders_on_the_page (a : ArticleD) (c : Component) :
  extract_article a = Append c →
  (ELocationID a = None → doi_line c = Ret ("DOI: N" +:+ nl))
  ∧ (ArticleDate a = None → date_line c = Ret "")
  ∧ (AuthorList a = None →
     Institution c = None
     ∧ ∃ authors, Authors c = Some authors
         ∧ join ", " (items_of authors)
           = "N, o,  , a, u, t, h, o, r, s,  , a, v, a, i, l, a, b, l, e").
Proof.
  intros Ha.
  apply extract_article_keys in Ha as (_ & Hdate & Hlink & Hauthors & Hinst & _).
  split; [|split].
  - intros Hnone. unfold doi_line. by rewrite Hlink, Hnone.
  - intros Hnone. unfold date_line. by rewrite Hdate, Hnone.
  - intros Hnone. split; [by apply Hinst|].
    eexists. split; [done|]. unfold authors_of. by rewrite Hnone.
Qed.

Lemma placeholders_on_the_page_witness :
  extract_article
    (mkArticle (Some "A title") (Some (Some ["An abstract."])) None None None None)
  = Append (bare_component "A title")
  ∧ (ELocationID
       (mkArticle (Some "A title") (Some (Some ["An abstract."])) None None None None)
     = None → doi_line (bare_component "A title") = Ret ("DOI: N" +:+ nl))
  ∧ (ArticleDate
       (mkArticle (Some "A title") (Some (Some ["An abstract."])) None None None None)
     = None → date_line (bare_component "A title") = Ret "")
  ∧ (AuthorList
       (mkArticle (Some "A title") (Some (Some ["An abstract."])) None None None None)
     = None →
     Institution (bare_component "A title") = None
     ∧ ∃ authors, Authors (bare_component "A title") = Some authors
         ∧ join ", " (items_of authors)
           = "N, o,  , a, u, t, h, o, r, s,  , a, v, a, i, l, a, b, l, e").
Proof.
  split; [reflexivity|].
  apply (placeholders_on_the_page
           (mkArticle (Some "A title") (Some (Some ["An abstract."]))
              None None None None)
           (bare_component "A title")).
  reflexivity.
Defined.

(** X11: extraction can raise, in two ways only: [IndexError] at
    [["AbstractText"][0]] when a reached article has a title and an empty
    [AbstractText] list, and [KeyError] when an entry of a reached
    article's [AffiliationInfo] has no ["Affiliation"].  No component is
    returned in either case. *)
Theorem get_paper_info_raises (papers : list Paper) (e : exn) :
  get_paper_info papers = Raise e →
  ∃ paper entry a,
    paper ∈ papers ∧ reached (PubmedArticle paper) entry
    ∧ article_of entry = Some a ∧ is_Some (ArticleTitle a)
    ∧ ((e = IndexError ∧ ArticleAbstract a = Some (Some []))
       ∨ (e = KeyError ∧ affiliation_missing a)).
Proof.
  unfold get_paper_info.
  destruct (papers_loop papers []) as [all|e'] eqn:Hloop; [done|].
  simpl. intros [= <-].
  apply papers_loop_raises in Hloop as (paper & entry & a & ? & ? & ? & Ha).
  exists paper, entry, a. repeat split; try done.
  - unfold extract_article in Ha. by destruct (ArticleTitle a); [eexists|].
  - by apply extract_article_propagates.
Qed.

Lemma get_paper_info_raises_witness :
  get_paper_info [mkPaper [sample_article "A"; article_with_empty_abstract "B"]]
  = Raise IndexError
  ∧ ∃ paper entry a,
      paper ∈ [mkPaper [sample_article "A"; article_with_empty_abstract "B"]]
      ∧ reached (PubmedArticle paper) entry
      ∧ article_of entry = Some a ∧ is_Some (ArticleTitle a)
      ∧ ((IndexError = IndexError ∧ ArticleAbstract a = Some (Some []))
         ∨ (IndexError = KeyError ∧ affiliation_missing a)).
Proof.
  split; [reflexivity|].
  apply (get_paper_info_raises
           [mkPaper [sample_article "A"; article_with_empty_abstract "B"]]
           IndexError).
  reflexivity.
Defined.

(** X12: a raw record that occurs several times in a row, as it does
    when every attempt of the retry loop succeeds, is extracted as if it
    occurred once: the copies raise or are deduplicated away. *)
Theorem get_paper_info_repeated_paper (before after : list Paper) (paper : Paper)
  (n : nat) :
  get_paper_info (before ++ replicate (S n) paper ++ after)
  = get_paper_info (before ++ [paper] ++ after).
Proof.
  unfold get_paper_info.
  rewrite !papers_loop_app, papers_loop_replicate.
  destruct (papers_loop before []) as [first|]; simpl; [|done].
  destruct (articles_loop (PubmedArticle paper) []) as [components|]; simpl;
    [|done].
  destruct (papers_loop after []) as [last|]; simpl; [|done].
  f_equal. unfold remove_duplicates.
  rewrite (remove_duplicates_from_app ∅ first),
    (remove_duplicates_from_app ∅ first (components ++ last)). f_equal.
  rewrite <- app_assoc. apply remove_duplicates_from_repeated.
Qed.

(** ** Counting calls and pauses *)

Section pacing_facts.

Variable env : Environment.

Lemma count_app p t1 t2 : count p (t1 ++ t2) = count p t1 + count p t2.
Proof. induction t1 as [|e t1 IH]; simpl; [done|]. rewrite IH. lia. Qed.

Lemma paced_refl papers w : paced 0 0 papers papers w w.
Proof.
  split; [done|]. exists []. rewrite app_nil_r. repeat split; try done.
  exists []. by rewrite app_nil_r.
Qed.

Lemma paced_trans p1 c1 p2 c2 papers1 papers2 papers3 w1 w2 w3 :
  paced p1 c1 papers1 papers2 w1 w2 → paced p2 c2 papers2 papers3 w2 w3 →
  paced (p1 + p2) (c1 + c2) papers1 papers3 w1 w3.
Proof.
  intros (Hs1 & t1 & Ht1 & <- & <- & Hb1 & a1 & -> & Ha1)
         (Hs2 & t2 & Ht2 & <- & <- & Hb2 & a2 & -> & Ha2).
  split; [lia|]. exists (t1 ++ t2).
  unfold count_sleeps, count_fetches in *. rewrite !count_app.
  split; [by rewrite Ht2, Ht1, app_assoc|].
  repeat split; try lia.
  exists (a1 ++ a2). rewrite length_app, app_assoc. split; [done | lia].
Qed.

Lemma paced_print m papers w : paced 0 0 papers papers w (log (Print m) w).
Proof.
  split; [done|]. exists [Print m]. repeat split; try done.
  exists []. by rewrite app_nil_r.
Qed.

Lemma get_paper_returns pmid paper w w' :
  get_paper env pmid w = (Ret paper, w') →
  ∀ papers, paced 0 1 papers (papers ++ [paper]) w w'.
Proof.
  unfold get_paper.
  destruct (efetch_reply env (fetches w)) as [p|e|msg]; [|..|done].
  - intros [= -> <-] papers. split; [done|]. exists [Efetch pmid].
    repeat split; try done. exists [paper]. by split.
  - destruct (response_status_code e) as [status|]; [|done].
    destruct (status =? 500)%Z; [done|]. by destruct (status =? 429)%Z.
Qed.

Lemma get_paper_reraises pmid e w w' :
  get_paper env pmid w = (Raise (HTTPErrorExn e), w') →
  ∀ papers, paced 0 1 papers papers w w'.
Proof.
  unfold get_paper.
  destruct (efetch_reply env (fetches w)) as [p|e'|msg]; [done|..|done].
  destruct (response_status_code e') as [status|]; [|done].
  destruct (status =? 500)%Z; [done|].
  destruct (status =? 429)%Z; [done|].
  intros [= <- <-] papers. split; [done|]. exists [Efetch pmid].
  repeat split; try done. exists [].
  split; [by rewrite app_nil_r | simpl; lia].
Qed.

Lemma attempts_paced n pmid papers w papers' w' :
  attempts env n pmid papers w = (Ret papers', w') →
  paced 0 n papers papers' w w'.
Proof.
  revert papers w; induction n as [|n IH]; intros papers w; simpl.
  - intros [= <- <-]. apply paced_refl.
  - destruct (get_paper env pmid w) as [[paper|e] w1] eqn:Hget.
    + intros Hrest%IH.
      apply (paced_trans 0 1 0 n _ _ _ _ _ _
               (get_paper_returns _ _ _ _ Hget papers) Hrest).
    + destruct e; try done. intros Hrest%IH.
      pose proof (get_paper_reraises _ _ _ _ Hget papers) as H1.
      pose proof (paced_print (MsgHTTPErrorEncountered e) papers w1) as H2.
      pose proof (paced_print (MsgFailedToRetrieve pmid) papers
                    (log (Print (MsgHTTPErrorEncountered e)) w1)) as H3.
      apply (paced_trans 0 1 0 n _ _ _ _ _ _ H1).
      apply (paced_trans 0 0 0 n _ _ _ _ _ _ H2).
      apply (paced_trans 0 0 0 n _ _ _ _ _ _ H3 Hrest).
Qed.

Lemma pmids_loop_paced attempt_number pmids papers w papers' w' :
  pmids_loop env attempt_number pmids papers w = (Ret papers', w') →
  paced (length pmids) (Z.to_nat attempt_number * length pmids) papers papers' w w'.
Proof.
  revert papers w; induction pmids as [|pmid rest IH]; intros papers w; simpl.
  - intros [= <- <-]. rewrite Nat.mul_0_r. apply paced_refl.
  - unfold mbind at 1, emit. unfold mbind at 1.
    destruct (attempts env (Z.to_nat attempt_number) pmid papers (log (Sleep 1) w))
      as [[papers1|e] w1] eqn:Hone; [|done].
    apply attempts_paced in Hone. intros Hrest%IH.
    assert (paced 1 0 papers papers w (log (Sleep 1) w)) as Hsleep.
    { split; [done|]. exists [Sleep 1]. repeat split; try done.
      exists []. by rewrite app_nil_r. }
    pose proof (paced_trans _ _ _ _ _ _ _ _ _ _ Hsleep
                  (paced_trans _ _ _ _ _ _ _ _ _ _ Hone Hrest)) as H.
    replace (Z.to_nat attempt_number * S (length rest))
      with (0 + (Z.to_nat attempt_number
                 + Z.to_nat attempt_number * length rest)) by lia.
    exact H.
Qed.

End pacing_facts.

Section lookup_facts.

Variable env : Environment.

Lemma get_paper_searches_kept pmid w :
  searches (snd (get_paper env pmid w)) = searches w.
Proof.
  unfold get_paper.
  destruct (efetch_reply env (fetches w)) as [p|e|msg]; [done| |done].
  destruct (response_status_code e) as [status|]; [|done].
  destruct (status =? 500)%Z; [done|]. by destruct (status =? 429)%Z.
Qed.

Lemma attempts_searches_kept n pmid papers w :
  searches (snd (attempts env n pmid papers w)) = searches w.
Proof.
  revert papers w; induction n as [|n IH]; intros papers w; simpl; [done|].
  pose proof (get_paper_searches_kept pmid w) as Hg.
  destruct (get_paper env pmid w) as [[paper|e] w1]; simpl in Hg.
  - by rewrite IH.
  - destruct e; try done. by rewrite IH.
Qed.

Lemma pmids_loop_searches_kept attempt_number pmids papers w :
  searches (snd (pmids_loop env attempt_number pmids papers w)) = searches w.
Proof.
  revert papers w; induction pmids as [|pmid rest IH]; intros papers w; simpl;
    [done|].
  unfold mbind at 1, emit. unfold mbind at 1.
  pose proof (attempts_searches_kept (Z.to_nat attempt_number) pmid papers
                (log (Sleep 1) w)) as Ha.
  destruct (attempts env (Z.to_nat attempt_number) pmid papers (log (Sleep 1) w))
    as [[papers1|e] w1]; simpl in Ha; [|done].
  by rewrite IH.
Qed.

Lemma get_pmids_returns q ids w w' :
  get_pmids env q w = (Ret ids, w') →
  esearch_reply env (searches w) = SearchOk ids
  ∧ searches w' = S (searches w)
  ∧ ∀ papers, paced 0 0 papers papers w w'.
Proof.
  unfold get_pmids.
  destruct (esearch_reply env (searches w)) as [l|e|]; [|done..].
  intros [= -> <-]. split; [done|]. split; [done|].
  intros papers. split; [simpl; lia|]. exists [Esearch q].
  repeat split; try done. exists []. by rewrite app_nil_r.
Qed.

Lemma keywords_loop_returns attempt_number start_date end_date journal keywords
  papers w papers' w' :
  keywords_loop env attempt_number start_date end_date journal keywords papers w
  = (Ret papers', w') →
  searches w' = searches w + length keywords
  ∧ (∀ i, i < length keywords →
          ∃ ids, esearch_reply env (searches w + i) = SearchOk ids)
  ∧ ∃ pauses, paced pauses (Z.to_nat attempt_number * pauses) papers papers' w w'.
Proof.
  revert papers w; induction keywords as [|keyword rest IH]; intros papers w; simpl.
  - intros [= <- <-]. split; [lia|]. split; [lia|].
    exists 0. rewrite Nat.mul_0_r. apply paced_refl.
  - unfold mbind at 1.
    destruct (get_pmids env _ w) as [[ids|e] w1] eqn:Hs; [|done].
    apply get_pmids_returns in Hs as (Hreply & Hcount & Hsearch).
    unfold mbind at 1.
    pose proof (pmids_loop_searches_kept attempt_number ids papers w1) as Hkept.
    destruct (pmids_loop env attempt_number ids papers w1) as [[papers1|e] w2]
      eqn:Hp; [|done].
    simpl in Hkept. apply pmids_loop_paced in Hp.
    intros (Hn & Hok & pauses & Hrest)%IH.
    split; [lia|]. split.
    + intros [|i] Hi.
      * exists ids. by rewrite Nat.add_0_r.
      * destruct (Hok i ltac:(lia)) as [ids' Hids']. exists ids'.
        rewrite <- Hids'. f_equal. lia.
    + exists (length ids + pauses).
      pose proof (paced_trans _ _ _ _ _ _ _ _ _ _ (Hsearch papers)
                    (paced_trans _ _ _ _ _ _ _ _ _ _ Hp Hrest)) as H.
      replace (Z.to_nat attempt_number * (length ids + pauses))
        with (0 + (Z.to_nat attempt_number * length ids
                   + Z.to_nat attempt_number * pauses)) by lia.
      exact H.
Qed.

Lemma journals_loop_returns attempt_number start_date end_date journals keywords
  papers w papers' w' :
  journals_loop env attempt_number start_date end_date journals keywords papers w
  = (Ret papers', w') →
  searches w' = searches w + length journals * length keywords
  ∧ (∀ i, i < length journals * length keywords →
          ∃ ids, esearch_reply env (searches w + i) = SearchOk ids)
  ∧ ∃ pauses, paced pauses (Z.to_nat attempt_number * pauses) papers papers' w w'.
Proof.
  revert papers w; induction journals as [|journal rest IH]; intros papers w; simpl.
  - intros [= <- <-]. split; [lia|]. split; [lia|].
    exists 0. rewrite Nat.mul_0_r. apply paced_refl.
  - unfold mbind at 1, emit. unfold mbind at 1.
    destruct (keywords_loop env attempt_number start_date end_date journal
                keywords papers (log (Print (MsgSearchingJournal journal)) w))
      as [[papers1|e] w1] eqn:Hk; [|done].
    apply keywords_loop_returns in Hk as (Hn1 & Hok1 & p1 & Hp1).
    intros (Hn2 & Hok2 & p2 & Hp2)%IH. simpl in Hn1, Hok1.
    split; [lia|]. split.
    + intros i Hi. destruct (decide (i < length keywords)) as [Hlt|Hge].
      * by apply Hok1.
      * destruct (Hok2 (i - length keywords) ltac:(lia)) as [ids Hids].
        exists ids. rewrite <- Hids. f_equal. lia.
    + exists (p1 + p2).
      pose proof (paced_trans _ _ _ _ _ _ _ _ _ _
                    (paced_print (MsgSearchingJournal journal) papers w)
                    (paced_trans _ _ _ _ _ _ _ _ _ _ Hp1 Hp2)) as H.
      replace (Z.to_nat attempt_number * (p1 + p2))
        with (0 + (Z.to_nat attempt_number * p1 + Z.to_nat attempt_number * p2))
        by lia.
      exact H.
Qed.

End lookup_facts.

(** X13: a lookup that returns has sent one query for every pair of a
    journal and a topic, all the topics of the first journal first, each
    query being the f-string of line 683 for that pair and the two
    dates. *)
Theorem lookup_pubmed_sends_planned_queries (env : Environment)
  (config_file_dict : Config) (start_date end_date : date_value)
  (attempt_number : Z) (w : World) (papers : list Paper) :
  fst (lookup_pubmed env config_file_dict (start_date, end_date) attempt_number w)
  = Ret papers →
  searches_of
    (trace (snd (lookup_pubmed env config_file_dict (start_date, end_date)
                   attempt_number w)))
  = searches_of (trace w)
    ++ planned_queries start_date end_date (journals config_file_dict)
         (topics config_file_dict)
  ∧ length (planned_queries start_date end_date (journals config_file_dict)
              (topics config_file_dict))
    = length (journals config_file_dict) * length (topics config_file_dict).
Proof.
  intros Hret.
  destruct (lookup_pubmed env config_file_dict (start_date, end_date)
              attempt_number w) as [r w'] eqn:Hrun.
  simpl in Hret. subst r. apply journals_loop_searches in Hrun.
  split; [done|].
  unfold planned_queries. generalize (journals config_file_dict) as js.
  induction js as [|j js IH]; simpl; [done|].
  by rewrite length_app, length_map, IH.
Qed.

Lemma lookup_pubmed_sends_planned_queries_witness :
  fst (lookup_pubmed always_found
         (mkConfig "reader@example.org" ["Nature"; "Cell"] ["crispr"; "prion"])
         (DateString "2024/07/03", DateString "3000/01/01") 1 fresh_world)
  = Ret [sample_paper; sample_paper; sample_paper; sample_paper]
  ∧ searches_of
      (trace (snd (lookup_pubmed always_found
         (mkConfig "reader@example.org" ["Nature"; "Cell"] ["crispr"; "prion"])
         (DateString "2024/07/03", DateString "3000/01/01") 1 fresh_world)))
    = searches_of (trace fresh_world)
      ++ planned_queries (DateString "2024/07/03") (DateString "3000/01/01")
           (journals
              (mkConfig "reader@example.org" ["Nature"; "Cell"] ["crispr"; "prion"]))
           (topics
              (mkConfig "reader@example.org" ["Nature"; "Cell"] ["crispr"; "prion"]))
  ∧ length
      (planned_queries (DateString "2024/07/03") (DateString "3000/01/01")
         (journals
            (mkConfig "reader@example.org" ["Nature"; "Cell"] ["crispr"; "prion"]))
         (topics
            (mkConfig "reader@example.org" ["Nature"; "Cell"] ["crispr"; "prion"])))
    = length
        (journals
           (mkConfig "reader@example.org" ["Nature"; "Cell"] ["crispr"; "prion"]))
      * length
          (topics
             (mkConfig "reader@example.org" ["Nature"; "Cell"] ["crispr"; "prion"])).
Proof.
  split; [reflexivity|].
  apply (lookup_pubmed_sends_planned_queries always_found
           (mkConfig "reader@example.org" ["Nature"; "Cell"] ["crispr"; "prion"])
           (DateString "2024/07/03") (DateString "3000/01/01") 1 fresh_world
           [sample_paper; sample_paper; sample_paper; sample_paper]).
  reflexivity.
Defined.

(** X14: nothing in [lookup_pubmed] catches a failed search: the lookup
    returns only if each of its searches, one per journal and topic, was
    answered with a list of identifiers. *)
Theorem lookup_pubmed_needs_every_search (env : Environment)
  (config_file_dict : Config) (start_end_date : date_value * date_value)
  (attempt_number : Z) (w : World) (papers : list Paper) :
  fst (lookup_pubmed env config_file_dict start_end_date attempt_number w)
  = Ret papers →
  searches (snd (lookup_pubmed env config_file_dict start_end_date attempt_number w))
  = searches w
    + length (journals config_file_dict) * length (topics config_file_dict)
  ∧ ∀ i, i < length (journals config_file_dict) * length (topics config_file_dict) →
         ∃ ids, esearch_reply env (searches w + i) = SearchOk ids.
Proof.
  intros Hret.
  destruct (lookup_pubmed env config_file_dict start_end_date attempt_number w)
    as [r w'] eqn:Hrun.
  simpl in Hret. subst r.
  apply journals_loop_returns in Hrun as (Hn & Hok & _). done.
Qed.

Lemma lookup_pubmed_needs_every_search_witness :
  fst (lookup_pubmed always_found sample_config default_dates 2 fresh_world)
  = Ret [sample_paper; sample_paper]
  ∧ searches (snd (lookup_pubmed always_found sample_config default_dates 2
                     fresh_world))
    = searches fresh_world
      + length (journals sample_config) * length (topics sample_config)
  ∧ ∀ i, i < length (journals sample_config) * length (topics sample_config) →
         ∃ ids, esearch_reply always_found (searches fresh_world + i) = SearchOk ids.
Proof.
  split; [reflexivity|].
  apply (lookup_pubmed_needs_every_search always_found sample_config
           default_dates 2 fresh_world [sample_paper; sample_paper]).
  reflexivity.
Defined.



Section refused_facts.

Variable env : Environment.



End refused_facts.



(** ** Dates *)

Section date_facts.

Lemma digit_value_digit k : digit_value (digit k) = Some (k mod 10).
Proof.
  unfold digit_value, digit.
  assert (k mod 10 < 10) by (apply Nat.mod_upper_bound; lia).
  rewrite nat_ascii_embedding by lia.
  destruct (Nat.leb_spec 48 (48 + k mod 10)); [|lia].
  destruct (Nat.leb_spec (48 + k mod 10) 57); [|lia].
  simpl. f_equal. lia.
Qed.

Lemma digit_value_bound c x : digit_value c = Some x → x ≤ 9.
Proof.
  unfold digit_value.
  destruct (Nat.leb_spec 48 (nat_of_ascii c)),
           (Nat.leb_spec (nat_of_ascii c) 57); simpl; try done.
  intros [= <-]. lia.
Qed.

Lemma days_in_month_bound y m : 28 ≤ days_in_month y m ≤ 31.
Proof.
  unfold days_in_month.
  do 12 (destruct m as [|m]; [try destruct (is_leap y); lia|]). lia.
Qed.

Lemma parse_month_two_digits m rest :
  1 ≤ m ≤ 12 → parse_month (two_digits m +:+ rest) = Some (m, rest).
Proof.
  intros Hm. do 13 (destruct m as [|m]; [try lia; try reflexivity|]). lia.
Qed.

Lemma parse_day_two_digits d :
  1 ≤ d ≤ 31 → parse_day (two_digits d) = Some (d, "").
Proof.
  intros Hd. do 32 (destruct d as [|d]; [try lia; try reflexivity|]). lia.
Qed.

Lemma year_of_digits y :
  y < 10 * 1000 →
  1000 * ((y / 1000) mod 10) + 100 * ((y / 100) mod 10) + 10 * ((y / 10) mod 10)
  + y mod 10 = y.
Proof.
  intros Hy.
  pose proof (Nat.div_mod_eq y 10) as H1.
  pose proof (Nat.div_mod_eq (y / 10) 10) as H2.
  pose proof (Nat.div_mod_eq (y / 100) 10) as H3.
  replace (y / 10 / 10) with (y / 100) in H2
    by (by rewrite Nat.Div0.div_div).
  replace (y / 100 / 10) with (y / 1000) in H3
    by (by rewrite Nat.Div0.div_div).
  assert (y / 1000 < 10) as H4 by (apply Nat.Div0.div_lt_upper_bound; lia).
  rewrite (Nat.mod_small (y / 1000) 10 H4). lia.
Qed.

Lemma parse_month_range s m r : parse_month s = Some (m, r) → 1 ≤ m ≤ 12.
Proof.
  unfold parse_month. intros H.
  repeat case_match; simplify_eq;
    repeat match goal with
           | H : (_ <=? _) = true |- _ => apply Nat.leb_le in H
           | H : digit_value _ = Some _ |- _ => apply digit_value_bound in H
           end; lia.
Qed.

Lemma parse_day_range s d r : parse_day s = Some (d, r) → 1 ≤ d.
Proof.
  unfold parse_day. intros H.
  repeat case_match; simplify_eq;
    repeat match goal with
           | H : (_ <=? _) = true |- _ => apply Nat.leb_le in H
           | H : (_ && _) = true |- _ => apply andb_true_iff in H as [? ?]
           end; lia.
Qed.

Lemma strptime_calendar s v :
  strptime s = Some v → ∃ y m d, v = DateTime y m d ∧ calendar_date y m d.
Proof.
  unfold strptime. intros H. repeat case_match; simplify_eq.
  match goal with
  | H : (_ && _) = true |- _ => apply andb_true_iff in H as [Hy Hd]
  end.
  apply Nat.leb_le in Hy, Hd.
  repeat match goal with
         | H : digit_value _ = Some _ |- _ => apply digit_value_bound in H
         | H : parse_month _ = Some _ |- _ => apply parse_month_range in H
         | H : parse_day _ = Some _ |- _ => apply parse_day_range in H
         end.
  eexists _, _, _. split; [done|]. unfold calendar_date. lia.
Qed.

Lemma strptime_strftime y m d :
  calendar_date y m d → strptime (strftime y m d) = Some (DateTime y m d).
Proof.
  intros (Hy & Hm & Hd). pose proof (days_in_month_bound y m).
  unfold strftime, four_digits. cbn [String.append].
  change (two_digits y +:+ ?r)
    with (String (digit (y / 10)) (String (digit y) r)).
  cbn [strptime]. rewrite !digit_value_digit.
  change (Ascii.eqb "/" "/") with true. cbn [negb].
  rewrite parse_month_two_digits by done.
  change (Ascii.eqb "/" "/") with true. cbn [negb].
  rewrite parse_day_two_digits by lia.
  rewrite year_of_digits by lia.
  destruct (Nat.leb_spec 1 y); [|lia].
  destruct (Nat.leb_spec d (days_in_month y m)); [|lia]. done.
Qed.

End date_facts.

(** X17: [validate_date] accepts every date of the calendar written
    [YYYY/MM/DD] with leading zeros, and accepts it as that very date;
    it does nothing else. *)
Theorem validate_date_accepts_calendar_dates (year month day : nat) (w : World) :
  calendar_date year month day →
  validate_date (strftime year month day) w = (Ret tt, w)
  ∧ strptime (strftime year month day) = Some (DateTime year month day).
Proof.
  intros Hdate. unfold validate_date.
  by rewrite (strptime_strftime _ _ _ Hdate).
Qed.

Lemma validate_date_accepts_calendar_dates_witness :
  calendar_date 2024 2 29
  ∧ validate_date (strftime 2024 2 29) fresh_world = (Ret tt, fresh_world)
  ∧ strptime (strftime 2024 2 29) = Some (DateTime 2024 2 29).
Proof.
  split; [unfold calendar_date; simpl; lia|].
  apply (validate_date_accepts_calendar_dates 2024 2 29 fresh_world).
  unfold calendar_date; simpl; lia.
Defined.

(** X18: whatever [validate_date] accepts is a date of the calendar
    (month 1 to 12, day within the month, leap years counted); anything
    else raises [ValueError] with the message "Incorrect date format,
    should be YYYY/MM/DD".  The world is left as it was. *)
Theorem validate_date_outcome (date : string) (w : World) :
  snd (validate_date date w) = w
  ∧ match fst (validate_date date w) with
    | Ret _ =>
        ∃ year month day,
          strptime date = Some (DateTime year month day)
          ∧ calendar_date year month day
    | Raise e =>
        e = ValueError "Incorrect date format, should be YYYY/MM/DD"
        ∧ strptime date = None
    end.
Proof.
  unfold validate_date.
  destruct (strptime date) as [v|] eqn:Hparse; simpl; [|done].
  split; [done|].
  apply strptime_calendar in Hparse as (y & m & d & -> & Hdate).
  by exists y, m, d.
Qed.



(** X20: in the other mode [ask_user_date] reads a start and an end
    date; when both are dates of the calendar (an empty end date
    standing for 3000/01/01) it returns them as two [datetime] values,
    in the order given, whether or not the start is before the end. *)
Theorem ask_user_date_entered_dates (env : Environment)
  (running_mode start_date end_date : string) (rest : list string) (w : World)
  (s e : date_value) :
  stdin w = running_mode :: start_date :: end_date :: rest →
  lower running_mode ∉ ["y"; "yes"; ""] →
  strptime start_date = Some s →
  strptime (if bool_decide (end_date = "") then "3000/01/01" else end_date)
  = Some e →
  ask_user_date env "3000/01/01" w
  = (Ret (s, e),
     mkWorld rest (searches w) (fetches w)
       (trace w ++ [Print (MsgOther nl); Print (MsgStartDate s);
                    Print (MsgEndDate e)])
       (files w))
  ∧ (∃ y m d, s = DateTime y m d ∧ calendar_date y m d)
  ∧ (∃ y m d, e = DateTime y m d ∧ calendar_date y m d).
Proof.
  intros Hin Hmode Hs He.
  split; [|split; by eapply strptime_calendar].
  unfold ask_user_date, mbind, emit, input, ret, log, validate_date,
    strptime_or_raise. cbn -[strptime bool_decide].
  rewrite Hin. rewrite bool_decide_eq_false_2 by done.
  cbn -[strptime bool_decide]. rewrite Hs. cbn -[strptime bool_decide].
  destruct (decide (end_date = "")) as [Hend|Hend].
  - rewrite bool_decide_eq_true_2 in He by done.
    rewrite bool_decide_eq_true_2 by done.
    cbn -[strptime bool_decide]. rewrite He. cbn -[strptime bool_decide].
    by rewrite <- !app_assoc.
  - rewrite bool_decide_eq_false_2 in He by done.
    rewrite bool_decide_eq_false_2 by done.
    rewrite !He. cbn -[strptime bool_decide]. rewrite ?He.
    cbn -[strptime bool_decide]. by rewrite <- !app_assoc.
Qed.

Lemma ask_user_date_entered_dates_witness :
  stdin (world_with_dates "2024/12/31" "2024/1/1")
  = ["n"; "2024/12/31"; "2024/1/1"]
  ∧ (lower "n" ∉ ["y"; "yes"; ""])
  ∧ strptime "2024/12/31" = Some (DateTime 2024 12 31)
  ∧ strptime (if bool_decide ("2024/1/1" = "") then "3000/01/01" else "2024/1/1")
    = Some (DateTime 2024 1 1)
  ∧ ask_user_date always_found "3000/01/01"
      (world_with_dates "2024/12/31" "2024/1/1")
    = (Ret (DateTime 2024 12 31, DateTime 2024 1 1),
       mkWorld [] (searches (world_with_dates "2024/12/31" "2024/1/1"))
         (fetches (world_with_dates "2024/12/31" "2024/1/1"))
         (trace (world_with_dates "2024/12/31" "2024/1/1")
          ++ [Print (MsgOther nl); Print (MsgStartDate (DateTime 2024 12 31));
              Print (MsgEndDate (DateTime 2024 1 1))])
         (files (world_with_dates "2024/12/31" "2024/1/1")))
  ∧ (∃ y m d, DateTime 2024 12 31 = DateTime y m d ∧ calendar_date y m d)
  ∧ (∃ y m d, DateTime 2024 1 1 = DateTime y m d ∧ calendar_date y m d).
Proof.
  assert (lower "n" ∉ ["y"; "yes"; ""]) as Hmode.
  { rewrite !elem_of_cons, elem_of_nil. intros [H|[H|[H|[]]]]; discriminate H. }
  split; [reflexivity|]. split; [exact Hmode|].
  split; [reflexivity|]. split; [reflexivity|].
  apply (ask_user_date_entered_dates always_found "n" "2024/12/31" "2024/1/1" []
           (world_with_dates "2024/12/31" "2024/1/1")
           (DateTime 2024 12 31) (DateTime 2024 1 1)).
  - reflexivity.
  - exact Hmode.
  - reflexivity.
  - reflexivity.
Defined.

(** X21: a start date that is not a date of the calendar stops [main]
    with [ValueError] before the end date is read and before any search
    or fetch; no file is touched. *)
Theorem main_rejects_start_date (env : Environment)
  (config_file_dict : option Config) (running_mode start_date : string)
  (rest : list string) (w : World) :
  stdin w = running_mode :: start_date :: rest →
  lower running_mode ∉ ["y"; "yes"; ""] →
  strptime start_date = None →
  main env (Ret config_file_dict) w
  = (Raise (ValueError "Incorrect date format, should be YYYY/MM/DD"),
     mkWorld rest (searches w) (fetches w)
       (trace w ++ [Print MsgOpener; Print MsgReadingConfig; Print (MsgOther nl)])
       (files w)).
Proof.
  intros Hin Hmode Hs.
  unfold main, ask_user_date, mbind, emit, input, ret, log, lift, validate_date,
    raise. simpl.
  rewrite Hin. rewrite bool_decide_eq_false_2 by done. simpl.
  rewrite Hs. simpl. by rewrite <- !app_assoc.
Qed.

Lemma main_rejects_start_date_witness :
  stdin (world_with_dates "2024-07-03" "2024/07/10")
  = ["n"; "2024-07-03"; "2024/07/10"]
  ∧ (lower "n" ∉ ["y"; "yes"; ""])
  ∧ strptime "2024-07-03" = None
  ∧ main always_found (Ret (Some sample_config))
      (world_with_dates "2024-07-03" "2024/07/10")
    = (Raise (ValueError "Incorrect date format, should be YYYY/MM/DD"),
       mkWorld ["2024/07/10"]
         (searches (world_with_dates "2024-07-03" "2024/07/10"))
         (fetches (world_with_dates "2024-07-03" "2024/07/10"))
         (trace (world_with_dates "2024-07-03" "2024/07/10")
          ++ [Print MsgOpener; Print MsgReadingConfig; Print (MsgOther nl)])
         (files (world_with_dates "2024-07-03" "2024/07/10"))).
Proof.
  assert (lower "n" ∉ ["y"; "yes"; ""]) as Hmode.
  { rewrite !elem_of_cons, elem_of_nil. intros [H|[H|[H|[]]]]; discriminate H. }
  split; [reflexivity|]. split; [exact Hmode|]. split; [reflexivity|].
  apply (main_rejects_start_date always_found (Some sample_config) "n"
           "2024-07-03" ["2024/07/10"]
           (world_with_dates "2024-07-03" "2024/07/10")).
  - reflexivity.
  - exact Hmode.
  - reflexivity.
Defined.

Section no_call_facts.

Variable env : Environment.

Lemma no_call_mbind {A B} (m : M A) (k : A → M B) :
  no_call_action m → (∀ a, no_call_action (k a)) → no_call_action (mbind m k).
Proof.
  intros Hm Hk w. unfold mbind. specialize (Hm w).
  destruct (m w) as [[a|e] w1]; simpl in *; [|done].
  destruct Hm as (? & ? & ?), (Hk a w1) as (? & ? & ?).
  repeat split; congruence.
Qed.

Lemma mbind_Ret {A B} (m : M A) (k : A → M B) w a w' :
  m w = (Ret a, w') → mbind m k w = k a w'.
Proof. unfold mbind. by intros ->. Qed.

Lemma mbind_Raise {A B} (m : M A) (k : A → M B) w e w' :
  m w = (Raise e, w') → mbind m k w = (Raise e, w').
Proof. unfold mbind. by intros ->. Qed.

Lemma no_call_ret {A} (a : A) : no_call_action (ret a).
Proof. done. Qed.

Lemma no_call_raise {A} e : no_call_action (@raise A e).
Proof. done. Qed.

Lemma no_call_emit_print m : no_call_action (emit (Print m)).
Proof. done. Qed.

Lemma no_call_input : no_call_action input.
Proof. intros w. unfold input. by destruct (stdin w). Qed.

Lemma no_call_validate_date date : no_call_action (validate_date date).
Proof. unfold validate_date. by destruct (strptime date). Qed.

Lemma no_call_strptime_or_raise date : no_call_action (strptime_or_raise date).
Proof. unfold strptime_or_raise. by destruct (strptime date). Qed.

Lemma no_call_ask_user_date end_date_default :
  no_call_action (ask_user_date env end_date_default).
Proof.
  unfold ask_user_date.
  repeat first
    [ apply no_call_ret | apply no_call_input | apply no_call_validate_date
    | apply no_call_strptime_or_raise | apply no_call_emit_print
    | apply no_call_mbind; [|intros ?] | case_bool_decide ].
Qed.

End no_call_facts.

(** X22: when [read_config_file] raises, [main] stops at once with that
    exception.  When it has returned [None] because there is no
    [config.txt], [main] still asks for the dates and fails only
    afterwards, with [TypeError] at [config_file_dict['email']]; either
    way the run ends in an exception without a search, a fetch or a
    change to a file. *)
Theorem main_without_config (env : Environment) (w : World) :
  (∀ e, main env (Raise e) w
        = (Raise e, log (Print MsgReadingConfig) (log (Print MsgOpener) w)))
  ∧ no_call w (snd (main env (Ret None) w))
  ∧ (∃ e, fst (main env (Ret None) w) = Raise e)
  ∧ ∀ dates w',
      ask_user_date env "3000/01/01"
        (log (Print MsgReadingConfig) (log (Print MsgOpener) w))
      = (Ret dates, w') →
      main env (Ret None) w = (Raise TypeError, log (Print MsgLookingUp) w').
Proof.
  split; [done|].
  pose proof (no_call_ask_user_date env "3000/01/01"
                (log (Print MsgReadingConfig) (log (Print MsgOpener) w))) as Hask.
  unfold main.
  do 3 (erewrite mbind_Ret by reflexivity).
  destruct (ask_user_date env "3000/01/01" _) as [[dates|e] w1] eqn:Hdates;
    simpl in Hask.
  - erewrite mbind_Ret by exact Hdates.
    erewrite mbind_Ret by reflexivity.
    erewrite mbind_Raise by reflexivity.
    split; [done|]. split; [by eexists|]. by intros ? ? [= <- <-].
  - erewrite mbind_Raise by exact Hdates.
    split; [done|]. split; [by eexists|]. done.
Qed.

(** ** The reader *)

Section reader_facts.

Lemma is_lf_true c : is_lf c = true → c = ascii_of_nat 10.
Proof. unfold is_lf. by intros ?%Ascii.eqb_eq. Qed.

Lemma prefix_separator c r :
  String.prefix paragraph_separator (String c r)
  = is_lf c && match r with
               | String d _ => is_lf d
               | "" => false
               end.
Proof.
  unfold paragraph_separator, nl, is_lf. cbn [String.append].
  rewrite prefix_cons.
  destruct (Ascii.ascii_dec _ c) as [<-|Hc].
  - rewrite Ascii.eqb_refl. destruct r as [|d r']; [done|].
    rewrite prefix_cons.
    destruct (Ascii.ascii_dec _ d) as [<-|Hd].
    + rewrite Ascii.eqb_refl. by destruct r'.
    + symmetry. cbn [andb]. apply Ascii.eqb_neq. congruence.
  - symmetry. apply andb_false_iff. left. apply Ascii.eqb_neq. congruence.
Qed.

Lemma split_at_nonempty sep skip s : split_at sep skip s ≠ [].
Proof.
  revert skip. induction s as [|c r IH]; intros skip; [done|].
  cbn [split_at]. destruct skip; [|apply IH].
  destruct (String.prefix _ _); [done|].
  by destruct (split_at sep 0 r).
Qed.

Lemma split_at_paragraph s rest :
  paragraph s = true →
  split_at paragraph_separator 0 (s +:+ paragraph_separator +:+ rest)
  = s :: split_at paragraph_separator 0 rest.
Proof.
  induction s as [|c r IH]; intros Hs.
  - change ("" +:+ paragraph_separator +:+ rest)
      with (String (ascii_of_nat 10) (String (ascii_of_nat 10) rest)).
    cbn [split_at]. by rewrite prefix_separator.
  - cbn [String.append split_at]. rewrite prefix_separator.
    cbn [paragraph] in Hs.
    destruct (is_lf c) eqn:Hc.
    + destruct r as [|d r']; [done|].
      apply andb_true_iff in Hs as [Hd Hr].
      cbn [String.append]. apply negb_true_iff in Hd. rewrite Hd.
      cbn [andb]. change (String d (r' +:+ ?x)) with (String d r' +:+ x).
      by rewrite (IH Hr).
    + cbn [andb]. by rewrite (IH Hs).
Qed.

Lemma split_at_last s :
  paragraph s = true →
  split_at paragraph_separator 0 s = [s]
  ∧ split_at paragraph_separator 0 (s +:+ nl) = [s +:+ nl].
Proof.
  induction s as [|c r IH]; intros Hs; [done|].
  cbn [String.append split_at]. rewrite !prefix_separator.
  cbn [paragraph] in Hs.
  destruct (is_lf c) eqn:Hc.
  - destruct r as [|d r']; [done|].
    apply andb_true_iff in Hs as [Hd Hr].
    cbn [String.append]. apply negb_true_iff in Hd. rewrite Hd.
    cbn [andb]. change (String d (r' +:+ ?x)) with (String d r' +:+ x).
    destruct (IH Hr) as [-> ->]. done.
  - cbn [andb]. destruct (IH Hs) as [-> ->]. done.
Qed.

Lemma line_break_not_lf c : line_break c = false → is_lf c = false.
Proof.
  intros Hc. destruct (is_lf c) eqn:Hlf; [|done].
  apply is_lf_true in Hlf as ->. done.
Qed.

Lemma paragraph_line_free x : line_free x = true → paragraph x = true.
Proof.
  induction x as [|c r IH]; [done|]. cbn [line_free paragraph].
  intros [Hc Hr]%andb_true_iff. apply negb_true_iff in Hc.
  rewrite (line_break_not_lf _ Hc). by apply IH.
Qed.

Lemma paragraph_line x d z :
  line_free x = true → is_lf d = false → paragraph (String d z) = true →
  paragraph (x +:+ nl +:+ String d z) = true.
Proof.
  intros Hx Hd Hz. induction x as [|c r IH].
  - change ("" +:+ nl +:+ String d z) with (String (ascii_of_nat 10) (String d z)).
    cbn [paragraph] in *. rewrite Hd in *. done.
  - cbn [line_free] in Hx. apply andb_true_iff in Hx as [Hc Hr].
    apply negb_true_iff in Hc. cbn [String.append paragraph].
    rewrite (line_break_not_lf _ Hc). by apply IH.
Qed.

Lemma join_lines_head x rest :
  config_line x → ∃ d z, join nl (x :: rest) = String d z ∧ is_lf d = false.
Proof.
  intros [Hne Hx]. destruct x as [|d r]; [done|].
  cbn [line_free] in Hx. apply andb_true_iff in Hx as [Hd _].
  apply negb_true_iff, line_break_not_lf in Hd.
  destruct rest; cbn [join String.append]; eauto.
Qed.

Lemma paragraph_join lines :
  Forall config_line lines → paragraph (join nl lines) = true.
Proof.
  induction 1 as [|x rest Hx Hrest IH]; [done|].
  destruct rest as [|y rest'].
  - apply paragraph_line_free, Hx.
  - change (join nl (x :: y :: rest')) with (x +:+ nl +:+ join nl (y :: rest')).
    destruct (join_lines_head y rest') as (d & z & Heq & Hd);
      [by eapply Forall_inv|].
    rewrite Heq in *. apply paragraph_line; [apply Hx|done..].
Qed.

Lemma splitlines_line x z :
  line_free x = true →
  splitlines_from false (x +:+ nl +:+ z) = x :: splitlines_from false z.
Proof.
  intros Hx. induction x as [|c r IH]; [done|].
  cbn [line_free] in Hx. apply andb_true_iff in Hx as [Hc Hr].
  apply negb_true_iff in Hc.
  cbn [String.append splitlines_from andb]. rewrite Hc, (IH Hr). done.
Qed.

Lemma splitlines_one x : config_line x → splitlines_from false x = [x].
Proof.
  intros [Hne Hx]. induction x as [|c r IH]; [done|].
  cbn [line_free] in Hx. apply andb_true_iff in Hx as [Hc Hr].
  apply negb_true_iff in Hc.
  cbn [splitlines_from andb]. rewrite Hc.
  destruct r as [|d r']; [done|]. by rewrite IH.
Qed.

Lemma splitlines_join lines :
  Forall config_line lines →
  splitlines (join nl lines) = lines
  ∧ (lines ≠ [] → splitlines (join nl lines +:+ nl) = lines).
Proof.
  unfold splitlines. induction 1 as [|x rest Hx Hrest IH]; [done|].
  destruct rest as [|y rest'].
  - split; [by apply splitlines_one|]. intros _.
    change (join nl [x] +:+ nl) with (x +:+ nl +:+ "").
    rewrite splitlines_line; [done|apply Hx].
  - change (join nl (x :: y :: rest')) with (x +:+ nl +:+ join nl (y :: rest')).
    destruct IH as [IH1 IH2]. split.
    + rewrite splitlines_line; [|apply Hx]. by rewrite IH1.
    + intros _. rewrite !append_assoc.
      rewrite splitlines_line; [|apply Hx]. by rewrite IH2.
Qed.

Lemma read_config_file_text text w :
  fst (read_config_file (Some text) w)
  = if (String.length text =? 0)%nat
    then Raise (ValueError "config.txt is empty")
    else match str_split paragraph_separator text with
         | [email; journals; topic] =>
             if (count_char "@" email =? 1)%nat
             then Ret (Some (mkConfig (str_strip email) (splitlines journals)
                               (splitlines topic)))
             else Raise (ValueError "Please provide only one email")
         | _ => Raise (ValueError improperly_formatted)
         end.
Proof.
  unfold read_config_file, mbind, emit, raise, ret. cbn [fst snd].
  destruct (String.length text =? 0)%nat; [done|].
  destruct (str_split _ text) as [|e [|j [|t [|]]]]; try done.
  by destruct (count_char "@" e =? 1)%nat.
Qed.

Lemma count_char_append c a b :
  count_char c (a +:+ b) = count_char c a + count_char c b.
Proof.
  induction a as [|d r IH]; [done|]. cbn [String.append count_char].
  rewrite IH. lia.
Qed.

Lemma count_char_lstrip c s :
  py_isspace c = false → count_char c (lstrip s) = count_char c s.
Proof.
  intros Hc. induction s as [|d r IH]; [done|]. cbn [lstrip].
  destruct (py_isspace d) eqn:Hd; [|done]. rewrite IH. cbn [count_char].
  destruct (Ascii.eqb d c) eqn:Heq; [|done].
  apply Ascii.eqb_eq in Heq as ->. congruence.
Qed.

Lemma count_char_rstrip c s :
  py_isspace c = false → count_char c (rstrip s) = count_char c s.
Proof.
  intros Hc. induction s as [|d r IH]; [done|]. cbn [rstrip count_char].
  rewrite <- IH. destruct (rstrip r) as [|d' r']; [|done].
  destruct (py_isspace d) eqn:Hd; [|done]. cbn [count_char].
  destruct (Ascii.eqb d c) eqn:Heq; [|done].
  apply Ascii.eqb_eq in Heq as ->. congruence.
Qed.

Lemma lstrip_head s :
  lstrip s = "" ∨ ∃ c r, lstrip s = String c r ∧ py_isspace c = false.
Proof.
  induction s as [|d r IH]; [by left|]. cbn [lstrip].
  destruct (py_isspace d) eqn:Hd; [done|]. right. eauto.
Qed.

Lemma rstrip_head c r :
  py_isspace c = false → ∃ r', rstrip (String c r) = String c r'.
Proof.
  intros Hc. cbn [rstrip]. rewrite Hc. destruct (rstrip r); eauto.
Qed.

Lemma rstrip_rstrip s : rstrip (rstrip s) = rstrip s.
Proof.
  induction s as [|c r IH]; [done|]. cbn [rstrip].
  destruct (rstrip r) as [|d r'] eqn:Hr.
  - destruct (py_isspace c) eqn:Hc; [done|]. cbn [rstrip]. by rewrite Hc.
  - cbn [rstrip]. cbn [rstrip] in IH. rewrite IH. done.
Qed.

Lemma str_strip_stripped s :
  lstrip (str_strip s) = str_strip s ∧ rstrip (str_strip s) = str_strip s.
Proof.
  unfold str_strip. split; [|apply rstrip_rstrip].
  destruct (lstrip_head s) as [->|(c & r & -> & Hc)]; [done|].
  destruct (rstrip_head c r Hc) as [r' ->]. cbn [lstrip]. by rewrite Hc.
Qed.

Lemma line_free_splitlines_from after_cr s :
  Forall (λ line, line_free line = true) (splitlines_from after_cr s).
Proof.
  revert after_cr. induction s as [|c r IH]; intros after_cr; [constructor|].
  cbn [splitlines_from]. destruct (after_cr && is_lf c); [apply IH|].
  destruct (line_break c) eqn:Hc; [constructor; [done|apply IH]|].
  specialize (IH false). destruct (splitlines_from false r) as [|line rest].
  - constructor; [|done]. cbn [line_free]. by rewrite Hc.
  - apply Forall_cons in IH as [Hline Hrest]. constructor; [|done].
    cbn [line_free]. by rewrite Hc.
Qed.

Lemma length_head_extended c (parts : list string) :
  parts ≠ [] →
  length (match parts with
          | part :: rest => String c part :: rest
          | [] => [String c ""]
          end) = length parts.
Proof. by destruct parts. Qed.

Lemma length_split_at_separator skip s :
  skip ≤ String.length s →
  length (split_at paragraph_separator skip (s +:+ paragraph_separator))
  = S (length (split_at paragraph_separator skip s)).
Proof.
  revert skip. induction s as [|c r IH]; intros skip Hskip.
  - cbn [String.length] in Hskip. by replace skip with 0 by lia.
  - cbn [String.length] in Hskip. cbn [String.append split_at].
    destruct skip as [|k]; [|apply IH; lia].
    rewrite !prefix_separator. destruct (is_lf c) eqn:Hc; cbn [andb].
    + destruct r as [|d r'].
      * apply is_lf_true in Hc as ->. done.
      * cbn [String.append]. destruct (is_lf d).
        -- cbn [length]. f_equal.
           change (String d (r' +:+ ?x)) with (String d r' +:+ x).
           apply IH. cbn. lia.
        -- change (String d (r' +:+ ?x)) with (String d r' +:+ x).
           rewrite !length_head_extended by apply split_at_nonempty.
           apply IH. lia.
    + rewrite !length_head_extended by apply split_at_nonempty.
      apply IH. lia.
Qed.

End reader_facts.

(** X23: a configuration file in the documented form is read back as
    written: an email (one [@], on one line), two line feeds, the
    journals one per line, two line feeds, the topics one per line,
    every journal and topic a non-empty line.  [read_config_file]
    returns the email stripped and the journals and topics in their
    order; one line feed after the last topic changes nothing. *)
Theorem read_config_file_reads_paragraphs
  (address : string) (journal_lines topic_lines : list string) (w : World) :
  count_char "@" address = 1 → line_free address = true →
  Forall config_line journal_lines → Forall config_line topic_lines →
  fst (read_config_file (Some (config_text address journal_lines topic_lines)) w)
  = Ret (Some (mkConfig (str_strip address) journal_lines topic_lines))
  ∧ (topic_lines ≠ [] →
     fst (read_config_file
            (Some (config_text address journal_lines topic_lines +:+ nl)) w)
     = Ret (Some (mkConfig (str_strip address) journal_lines topic_lines))).
Proof.
  intros Hat Haddress Hjournals Htopics.
  pose proof (paragraph_line_free _ Haddress) as Hp1.
  pose proof (paragraph_join _ Hjournals) as Hp2.
  pose proof (paragraph_join _ Htopics) as Hp3.
  destruct (split_at_last _ Hp3) as [Hlast Hlast'].
  destruct (splitlines_join _ Hjournals) as [Hj _].
  destruct (splitlines_join _ Htopics) as [Ht Ht'].
  assert (Hlen : ∀ rest, (String.length (address +:+ rest) =? 0)%nat = false).
  { intros rest. destruct address; [done|]. done. }
  split; [|intros Hne]; rewrite read_config_file_text; unfold config_text.
  - rewrite Hlen. unfold str_split.
    rewrite (split_at_paragraph _ _ Hp1), (split_at_paragraph _ _ Hp2), Hlast.
    rewrite Hat, Hj, Ht. done.
  - rewrite !append_assoc, Hlen. unfold str_split.
    rewrite (split_at_paragraph _ _ Hp1), (split_at_paragraph _ _ Hp2), Hlast'.
    rewrite Hat, Hj, (Ht' Hne). done.
Qed.

Lemma read_config_file_reads_paragraphs_witness :
  count_char "@" "someone@example.org" = 1
  ∧ line_free "someone@example.org" = true
  ∧ Forall config_line ["Nature"; "Science"]
  ∧ Forall config_line ["crispr"; "phage"]
  ∧ fst (read_config_file (Some sample_config_text) fresh_world)
    = Ret (Some (mkConfig "someone@example.org" ["Nature"; "Science"]
                   ["crispr"; "phage"])).
Proof.
  assert (Hj : Forall config_line ["Nature"; "Science"])
    by (repeat constructor; done).
  assert (Ht : Forall config_line ["crispr"; "phage"])
    by (repeat constructor; done).
  split; [reflexivity|]. split; [reflexivity|]. split; [exact Hj|].
  split; [exact Ht|].
  exact (proj1 (read_config_file_reads_paragraphs "someone@example.org"
                  ["Nature"; "Science"] ["crispr"; "phage"] fresh_world
                  eq_refl eq_refl Hj Ht)).
Defined.

(** X24: what [read_config_file] does with a text.  It returns a
    dictionary exactly when the text splits at the double line feeds
    into three paragraphs of which the first holds one [@]; otherwise it
    raises [ValueError] (empty text, another number of paragraphs,
    another number of [@]) and nothing else.  In a returned dictionary
    the email still holds its one [@] and has no white space at either
    end, and no journal or topic holds a line boundary.  Without a file
    it returns [None] and prints nothing. *)
Theorem read_config_file_outcome (text : string) (w : World) :
  read_config_file None w = (Ret None, w)
  ∧ match fst (read_config_file (Some text) w) with
    | Ret (Some d) =>
        (∃ first second third,
           str_split paragraph_separator text = [first; second; third]
           ∧ count_char "@" first = 1
           ∧ d = mkConfig (str_strip first) (splitlines second) (splitlines third))
        ∧ count_char "@" (email d) = 1
        ∧ lstrip (email d) = email d ∧ rstrip (email d) = email d
        ∧ Forall (λ line, line_free line = true) (journals d ++ topics d)
    | Ret None => False
    | Raise (ValueError _) =>
        text = ""
        ∨ length (str_split paragraph_separator text) ≠ 3
        ∨ ∃ first second third,
            str_split paragraph_separator text = [first; second; third]
            ∧ count_char "@" first ≠ 1
    | Raise _ => False
    end.
Proof.
  split; [done|]. rewrite read_config_file_text.
  destruct (String.length text =? 0)%nat eqn:Hlen.
  { left. apply Nat.eqb_eq in Hlen. by destruct text. }
  destruct (str_split _ text) as [|first [|second [|third [|]]]] eqn:Hsplit;
    try (right; left; cbn [length]; lia).
  destruct (count_char "@" first =? 1)%nat eqn:Hat.
  - apply Nat.eqb_eq in Hat. split; [by eauto 6|]. cbn [email journals topics].
    split.
    { unfold str_strip. by rewrite count_char_rstrip, count_char_lstrip. }
    split; [apply str_strip_stripped|]. split; [apply str_strip_stripped|].
    apply Forall_app. split; apply line_free_splitlines_from.
  - apply Nat.eqb_neq in Hat. right. right. eauto.
Qed.

(** X25: an empty line at the end of the file makes a good file bad.
    Whenever a text is accepted, the same text followed by two line
    feeds has a fourth, empty paragraph and is refused with the
    [ValueError] for a wrong number of paragraphs. *)
Theorem read_config_file_refuses_final_blank_line
  (text : string) (d : Config) (w : World) :
  fst (read_config_file (Some text) w) = Ret (Some d) →
  fst (read_config_file (Some (text +:+ paragraph_separator)) w)
  = Raise (ValueError improperly_formatted).
Proof.
  rewrite !read_config_file_text. intros Haccepted.
  assert (length (str_split paragraph_separator text) = 3) as Hthree.
  { destruct (String.length text =? 0)%nat; [done|].
    by destruct (str_split _ text) as [|first [|second [|third [|]]]]. }
  pose proof (length_split_at_separator 0 text (Nat.le_0_l _)) as Hfour.
  fold (str_split paragraph_separator text) in Hfour.
  fold (str_split paragraph_separator (text +:+ paragraph_separator)) in Hfour.
  rewrite Hthree in Hfour.
  replace (String.length (text +:+ paragraph_separator) =? 0)%nat with false
    by (symmetry; apply Nat.eqb_neq; rewrite length_append; cbn; lia).
  by destruct (str_split _ (text +:+ _)) as [|? [|? [|? [|? [|]]]]].
Qed.

Lemma read_config_file_refuses_final_blank_line_witness :
  fst (read_config_file (Some sample_config_text) fresh_world)
  = Ret (Some (mkConfig "someone@example.org" ["Nature"; "Science"]
                 ["crispr"; "phage"]))
  ∧ fst (read_config_file (Some (sample_config_text +:+ nl +:+ nl)) fresh_world)
    = Raise (ValueError improperly_formatted).
Proof.
  split; [reflexivity|].
  apply (read_config_file_refuses_final_blank_line sample_config_text
           (mkConfig "someone@example.org" ["Nature"; "Science"]
              ["crispr"; "phage"]) fresh_world).
  reflexivity.
Defined.
